(** * The parser-writing agent of [agent.py]: a shallow embedding

    The program drives a tool-calling conversation with a language model:
    the model may read the sample PDF, read the schema of the reference
    CSV, write a parser module and run a test on it; the loop stops when
    the model says so or after a fixed number of rounds.

    The functions of [agent.py] are embedded as functions on the state
    of a run, in a small monad for state and exceptions. Everything the program only calls (the model service, pdfplumber,
    pandas, the JSON decoder, the Python interpreter loading the generated
    module, the operating system) is a field of the record [Env], so every
    theorem holds whatever these collaborators answer.

    Python strings are Rocq strings, one character per code point; the
    text handled here is taken to be ASCII. *)

From Stdlib Require Import String Ascii ZArith List Lia Bool DecimalString.
From stdpp Require Import base gmap strings list.
Import ListNotations.

(** ** Python strings *)

Module PyStr.

(** The double quote and the line feed, which string literals of this
    file do not spell out. *)
Definition dq : string := String "034" EmptyString.
Definition nl : string := String "010" EmptyString.

Definition upper_char (c : ascii) : ascii :=
  let n := nat_of_ascii c in
  if (97 <=? n)%nat && (n <=? 122)%nat then ascii_of_nat (n - 32) else c.

(** [s.upper()] *)
Fixpoint upper (s : string) : string :=
  match s with
  | EmptyString => EmptyString
  | String c s' => String (upper_char c) (upper s')
  end.

(** [sub in s] *)
Fixpoint contains (sub s : string) : bool :=
  String.prefix sub s ||
  match s with
  | EmptyString => false
  | String _ s' => contains sub s'
  end.

(** [sep.join(l)] *)
Fixpoint join (sep : string) (l : list string) : string :=
  match l with
  | [] => ""
  | x :: l' =>
      match l' with
      | [] => x
      | _ :: _ => x +:+ sep +:+ join sep l'
      end
  end.

(** [s[:n]] *)
Definition take (n : nat) (s : string) : string := String.substring 0 n s.

(** [str(n)] for a natural number. *)
Definition of_nat (n : nat) : string :=
  NilEmpty.string_of_uint (Nat.to_uint n).

(** [str((r, c))], the text of a pair of integers such as a shape. *)
Definition of_shape (sh : nat * nat) : string :=
  "(" +:+ of_nat (fst sh) +:+ ", " +:+ of_nat (snd sh) +:+ ")".

Definition hex_digit (n : nat) : ascii :=
  if (n <? 10)%nat then ascii_of_nat (48 + n) else ascii_of_nat (87 + n).

(** One character of a string under [json.dumps] (with its default
    [ensure_ascii=True]): the quote and the backslash are escaped, the
    usual control characters have their short form, and every other
    character outside [' '..'~'] becomes a [\u00XX] escape. *)
Definition json_escape_char (c : ascii) : string :=
  let n := nat_of_ascii c in
  if (n =? 34)%nat then "\" +:+ dq
  else if (n =? 92)%nat then "\\"
  else if (n =? 10)%nat then "\n"
  else if (n =? 13)%nat then "\r"
  else if (n =? 9)%nat then "\t"
  else if (n =? 8)%nat then "\b"
  else if (n =? 12)%nat then "\f"
  else if (32 <=? n)%nat && (n <=? 126)%nat then String c EmptyString
  else "\u00" +:+ String (hex_digit (n / 16)) (String (hex_digit (n mod 16)) EmptyString).

Fixpoint json_escape (s : string) : string :=
  match s with
  | EmptyString => EmptyString
  | String c s' => json_escape_char c +:+ json_escape s'
  end.

(** [json.dumps(s)] for a string [s]. *)
Definition json_dumps_str (s : string) : string :=
  dq +:+ json_escape s +:+ dq.

End PyStr.

(** ** Python exceptions *)

(** Exception classes, with the builtin class hierarchy: the classes
    named in the [except] clauses of the program, those the libraries
    it calls commonly raise, and [OtherException] for any other class
    derived directly from [Exception]. *)
Inductive ExnClass :=
| BaseException | Exception | SystemExit | KeyboardInterrupt
| NameError | UnboundLocalError
| ImportError | ModuleNotFoundError
| SyntaxError | AttributeError | TypeError
| ValueError | JSONDecodeError
| OSError | FileNotFoundError | PermissionError
| LookupError | KeyError | IndexError
| RuntimeError | RecursionError
| ArithmeticError | ZeroDivisionError
| OtherException (name : string).

#[global] Instance ExnClass_eq_dec : EqDecision ExnClass.
Proof. solve_decision. Defined.

(** The direct base class. *)
Definition base_class (c : ExnClass) : option ExnClass :=
  match c with
  | BaseException => None
  | Exception | SystemExit | KeyboardInterrupt => Some BaseException
  | UnboundLocalError => Some NameError
  | ModuleNotFoundError => Some ImportError
  | JSONDecodeError => Some ValueError
  | FileNotFoundError | PermissionError => Some OSError
  | KeyError | IndexError => Some LookupError
  | RecursionError => Some RuntimeError
  | ZeroDivisionError => Some ArithmeticError
  | NameError | ImportError | SyntaxError | AttributeError | TypeError
  | ValueError | OSError | LookupError | RuntimeError | ArithmeticError
  | OtherException _ => Some Exception
  end.

Fixpoint issubclass_upto (depth : nat) (c d : ExnClass) : bool :=
  bool_decide (c = d) ||
  match depth, base_class c with
  | S depth', Some b => issubclass_upto depth' b d
  | _, _ => false
  end.

(** [issubclass(c, d)]; no class above is more than three steps below
    [BaseException]. *)
Definition issubclass : ExnClass -> ExnClass -> bool := issubclass_upto 3.

(** A raised exception: its class and [str(e)]. *)
Record PyExn := mkExn { exn_class : ExnClass; exn_str : string }.

(** Whether [except d] catches [e]. *)
Definition caught_by (e : PyExn) (d : ExnClass) : bool :=
  issubclass (exn_class e) d.

(** The result of evaluating a Python expression: a value or a raised
    exception. *)
Inductive Res (A : Type) : Type :=
| Ok (a : A)
| Raise (e : PyExn).
Arguments Ok {A} a.
Arguments Raise {A} e.

(** ** Data *)

(** A value decoded by [json.loads]; a [JDict] lists the items of the
    decoded dict, one per key. *)
#[warnings="-register-all"]
Inductive json :=
| JNull
| JBool (b : bool)
| JInt (z : Z)
| JFloat (repr : string)
| JStr (s : string)
| JList (l : list json)
| JDict (items : list (string * json)).

(** [type(v).__name__] *)
Definition type_name (v : json) : string :=
  match v with
  | JNull => "NoneType"
  | JBool _ => "bool"
  | JInt _ => "int"
  | JFloat _ => "float"
  | JStr _ => "str"
  | JList _ => "list"
  | JDict _ => "dict"
  end.

Fixpoint assoc_get {A} (k : string) (items : list (string * A)) : option A :=
  match items with
  | [] => None
  | (k', v) :: items' => if String.eqb k' k then Some v else assoc_get k items'
  end.

(** [args.get(key, default)]: only a dict has the method. *)
Definition py_get (args : json) (key : string) (default : json) : Res json :=
  match args with
  | JDict items =>
      Ok (match assoc_get key items with Some v => v | None => default end)
  | _ =>
      Raise (mkExn AttributeError
               ("'" +:+ type_name args +:+ "' object has no attribute 'get'"))
  end.

(** The [id] attribute of a tool call: absent, [None], or a string. *)
Inductive IdAttr :=
| NoId
| IdNone
| IdStr (s : string).

Definition hasattr_id (a : IdAttr) : bool :=
  match a with NoId => false | _ => true end.

(** Truth value of [tool_call.id] when the attribute exists. *)
Definition truthy_id (a : IdAttr) : bool :=
  match a with
  | IdStr s => negb (String.eqb s "")
  | _ => false
  end.

(** The value of [tool_call.id] when the attribute exists: a string or
    [None]. *)
Definition id_value (a : IdAttr) : option string :=
  match a with IdStr s => Some s | _ => None end.

(** A tool invocation requested by the model: [tool_call.id],
    [tool_call.function.name], [tool_call.function.arguments]. *)
Record ToolCall := mkToolCall {
  tc_id : IdAttr;
  tc_name : string;
  tc_arguments : string
}.

#[global] Instance IdAttr_eq_dec : EqDecision IdAttr.
Proof. solve_decision. Defined.

#[global] Instance ToolCall_eq_dec : EqDecision ToolCall.
Proof. solve_decision. Defined.

Inductive Role := system | user | assistant | tool.

#[global] Instance Role_eq_dec : EqDecision Role.
Proof. solve_decision. Defined.

(** A transcript entry, a dict with the keys [role] and [content] and,
    depending on the entry, [tool_calls], [tool_call_id] and [name]. A
    key that the dict does not have is [None]; the value of
    [tool_call_id] is a string or Python's [None]. *)
Record Message := mkMessage {
  msg_role : Role;
  msg_content : string;
  msg_tool_calls : option (list ToolCall);
  msg_tool_call_id : option (option string);
  msg_name : option string
}.

#[global] Instance Message_eq_dec : EqDecision Message.
Proof. solve_decision. Defined.

(** [response.choices[0].message] *)
Record ModelMessage := mkModelMessage {
  mm_content : option string;
  mm_tool_calls : option (list ToolCall)
}.

(** A page of an opened PDF: what [extract_text()] and
    [extract_tables()] return. A table is a list of rows of cells. *)
Definition Table := list (list (option string)).

Record Page := mkPage {
  extract_text : option string;
  extract_tables : list Table
}.

(** A cell of a data frame. A finite float [CFloat m e] is the number
    [m * 2^e]. *)
Inductive Cell :=
| CNone
| CNaN
| CBool (b : bool)
| CInt (z : Z)
| CFloat (mantissa exponent : Z)
| CStr (s : string).

#[global] Instance Cell_eq_dec : EqDecision Cell.
Proof. solve_decision. Defined.

(** A pandas data frame: column labels, row labels, the dtype of each
    column and the rows of cells. Column labels are strings and row
    labels integers, as [read_csv] produces them. *)
Record DataFrame := mkDataFrame {
  columns : list string;
  index : list Z;
  dtypes : list string;
  values : list (list Cell)
}.

#[global] Instance DataFrame_eq_dec : EqDecision DataFrame.
Proof. solve_decision. Defined.

(** [df.shape] *)
Definition shape (df : DataFrame) : nat * nat :=
  (length (index df), length (columns df)).

(** [df.head(n)] *)
Definition head (n : nat) (df : DataFrame) : DataFrame :=
  {| columns := columns df;
     index := firstn n (index df);
     dtypes := dtypes df;
     values := firstn n (values df) |}.

(** [isna] on a cell: [None] and [NaN] are the missing values. *)
Definition is_missing (c : Cell) : bool :=
  match c with
  | CNone | CNaN => true
  | _ => false
  end.

(** The number a cell holds, as mantissa and binary exponent; [True] is
    1 and [False] is 0, as Python compares them. *)
Definition number (c : Cell) : option (Z * Z) :=
  match c with
  | CBool b => Some (Z.b2z b, 0%Z)
  | CInt z => Some (z, 0%Z)
  | CFloat m e => Some (m, e)
  | _ => None
  end.

(** Two numbers [m * 2^e] have the same value. *)
Definition same_number (x y : Z * Z) : bool :=
  let '(m1, e1) := x in
  let '(m2, e2) := y in
  if (e1 <=? e2)%Z then (m1 =? m2 * 2 ^ (e2 - e1))%Z
  else (m1 * 2 ^ (e1 - e2) =? m2)%Z.

(** [x == y] on two cells: numbers by value, strings by their
    characters, [None] to itself; [NaN] is equal to nothing. *)
Definition py_eq (a b : Cell) : bool :=
  match number a, number b with
  | Some x, Some y => same_number x y
  | None, None =>
      match a, b with
      | CStr s, CStr t => String.eqb s t
      | CNone, CNone => true
      | _, _ => false
      end
  | _, _ => false
  end.

(** How [equals] compares two cells at the same place: they are equal,
    or both are missing. *)
Definition cell_equal (a b : Cell) : bool :=
  py_eq a b || (is_missing a && is_missing b).

(** [f] holds of the elements of two lists of one length, pair by pair. *)
Fixpoint all2 {A : Type} (f : A -> A -> bool) (l l' : list A) : bool :=
  match l, l' with
  | [], [] => true
  | x :: l, y :: l' => f x y && all2 f l l'
  | _, _ => false
  end.

(** [a.equals(b)] of pandas: the two axes are equal, every column has
    the same dtype in both, and the cells are equal place by place, two
    missing values at the same place counting as equal. *)
Definition equals (a b : DataFrame) : bool :=
  bool_decide (columns a = columns b)
  && bool_decide (index a = index b)
  && bool_decide (dtypes a = dtypes b)
  && all2 (all2 cell_equal) (values a) (values b).

(** Two cells that [equals] does not tell apart. *)
Inductive same_cell : Cell -> Cell -> Prop :=
| same_missing a b :
    is_missing a = true -> is_missing b = true -> same_cell a b
| same_text s : same_cell (CStr s) (CStr s)
| same_value a b m1 e1 m2 e2 :
    number a = Some (m1, e1) -> number b = Some (m2, e2) ->
    (m1 * 2 ^ (e1 - Z.min e1 e2) = m2 * 2 ^ (e2 - Z.min e1 e2))%Z ->
    same_cell a b.

(** Two tables that [equals] does not tell apart: the same column
    labels in the same order, the same row labels, the same dtype for
    every column, and, row by row and column by column, cells that are
    equal or both missing. *)
Definition same_table (a b : DataFrame) : Prop :=
  columns a = columns b /\
  index a = index b /\
  dtypes a = dtypes b /\
  Forall2 (Forall2 same_cell) (values a) (values b).

(** What a generated [parse] may return: a data frame; an object of
    another type that has no [equals]; or an object of another type
    that has one (a Series, say), given by what [obj.equals(expected)]
    is worth as a condition and by the texts of [obj.shape] and of
    [obj.head()] in an f-string, each of which may raise. *)
Inductive PyObj :=
| ODataFrame (df : DataFrame)
| OOther (type_name : string)
| OEquals (answer : DataFrame -> Res bool) (shape_str head_str : Res string).

(** A loaded parser module: calling [module.parse(pdf_path)] (the
    lookup of [parse] included). *)
Record Module := mkModule {
  parse : string -> Res PyObj
}.

(** [spec.loader]: executing the source of the file gives the module or
    raises. The interpreter is taken to compile the source that is on
    disk at the time of the load. *)
Record Loader := mkLoader {
  exec_module : string -> Res Module
}.

Record ModuleSpec := mkModuleSpec {
  loader : option Loader
}.

(** The dict returned by [extract_pdf_content]. *)
Record PdfContent := mkPdfContent {
  pdf_text : string;
  pdf_tables : list Table
}.

(** The dict returned by [get_expected_info]. *)
Record ExpectedInfo := mkExpectedInfo {
  info_columns : list string;
  info_shape : nat * nat;
  info_dtypes : list (string * string);
  info_sample_rows : list (list (string * Cell))
}.

(** What a tool handler returns. *)
Inductive ToolResult :=
| RPdf (c : PdfContent)
| RInfo (i : ExpectedInfo)
| RStr (s : string).

(** The collaborators of the program. *)
Record Env := mkEnv {
  (** [os.getenv] *)
  getenv : string -> option string;
  (** [os.path.exists] on the sample files *)
  sample_exists : string -> bool;
  (** [client.chat.completions.create(...).choices[0].message], given
      the transcript *)
  chat_create : list Message -> Res ModelMessage;
  (** [pdfplumber.open(path).pages] *)
  pdfplumber_open : string -> Res (list Page);
  (** [pd.read_csv] *)
  read_csv : string -> Res DataFrame;
  (** the text of a data frame in an f-string *)
  df_str : DataFrame -> string;
  (** [importlib.util.spec_from_file_location(name, path)] *)
  spec_from_file_location : string -> string -> option ModuleSpec;
  (** [json.loads] *)
  json_loads : string -> Res json;
  (** [json.dumps] and [str] of a dict result *)
  json_dumps_dict : ToolResult -> Res string;
  str_dict : ToolResult -> string;
  (** [os.makedirs] followed by [open(path, 'w')]: the error raised, if
      any *)
  open_w : string -> option PyExn
}.

(** What a run does, recorded in the order it happens: a request to the
    model, the call of a tool executor, the final test, and a write of
    the parser file that went through. The record is kept for the
    statements below and the program does not read it. *)
Inductive Event :=
| EvModel
| EvHandler (func_name : string)
| EvFinalTest
| EvWrite (path : string).

#[global] Instance Event_eq_dec : EqDecision Event.
Proof. solve_decision. Defined.

(** The state of a run: the three variables of [run_agent], the files
    the program reads and writes (path to content), the lines printed
    and the events so far. A file is known by the path text the program
    passes to the operating system. The bytecode cache that the
    interpreter keeps beside a loaded module is not among the files. *)
Record State := mkState {
  messages : list Message;
  attempts : nat;
  iteration : nat;
  files : gmap string string;
  stdout : list string;
  calls : list Event
}.

(** ** Evaluation with exceptions and state *)

#[global] Instance Res_ret : MRet Res := fun _ a => Ok a.
#[global] Instance Res_bind : MBind Res := fun _ _ f r =>
  match r with
  | Ok a => f a
  | Raise e => Raise e
  end.

(** A statement of [run_agent]: it transforms the state and either
    yields a value or raises; the effects made before a raise stay. *)
Definition M (A : Type) : Type := State -> Res A * State.

#[global] Instance M_ret : MRet M := fun _ a st => (Ok a, st).
#[global] Instance M_bind : MBind M := fun _ _ f m st =>
  match m st with
  | (Ok a, st') => f a st'
  | (Raise e, st') => (Raise e, st')
  end.

Definition raise {A} (e : PyExn) : M A := fun st => (Raise e, st).

Definition lift {A} (r : Res A) : M A := fun st => (r, st).

(** [try: body except ...: handler], where [handler e] is [None] when
    no clause catches [e]. *)
Definition try_except {A} (body : M A) (handler : PyExn -> option (M A)) : M A :=
  fun st =>
    match body st with
    | (Ok a, st') => (Ok a, st')
    | (Raise e, st') =>
        match handler e with
        | Some h => h st'
        | None => (Raise e, st')
        end
    end.

(** The state with one more message, one more printed line, one more
    event, or another value of a variable. *)
Definition push_message (m : Message) (st : State) : State :=
  {| messages := messages st ++ [m]; attempts := attempts st;
     iteration := iteration st; files := files st;
     stdout := stdout st; calls := calls st |}.

Definition push_line (line : string) (st : State) : State :=
  {| messages := messages st; attempts := attempts st;
     iteration := iteration st; files := files st;
     stdout := stdout st ++ [line]; calls := calls st |}.

Definition push_event (ev : Event) (st : State) : State :=
  {| messages := messages st; attempts := attempts st;
     iteration := iteration st; files := files st;
     stdout := stdout st; calls := calls st ++ [ev] |}.

Definition with_attempts (a : nat) (st : State) : State :=
  {| messages := messages st; attempts := a;
     iteration := iteration st; files := files st;
     stdout := stdout st; calls := calls st |}.

Definition with_iteration (i : nat) (st : State) : State :=
  {| messages := messages st; attempts := attempts st;
     iteration := i; files := files st;
     stdout := stdout st; calls := calls st |}.

Definition with_files (fs : gmap string string) (st : State) : State :=
  {| messages := messages st; attempts := attempts st;
     iteration := iteration st; files := fs;
     stdout := stdout st; calls := calls st |}.

(** [messages.append(m)] *)
Definition append (m : Message) : M unit := fun st => (Ok tt, push_message m st).

(** [print(line)] *)
Definition print (line : string) : M unit := fun st => (Ok tt, push_line line st).

Definition record (ev : Event) : M unit := fun st => (Ok tt, push_event ev st).

Definition set_attempts (a : nat) : M unit := fun st => (Ok tt, with_attempts a st).

Definition set_iteration (i : nat) : M unit := fun st => (Ok tt, with_iteration i st).

Definition set_files (fs : gmap string string) : M unit := fun st =>
  (Ok tt, with_files fs st).

Definition get {A} (field : State -> A) : M A := fun st => (Ok (field st), st).

(** [for x in l: body x] *)
Fixpoint for_each {A} (l : list A) (body : A -> M unit) : M unit :=
  match l with
  | [] => mret tt
  | x :: l' => body x ;; for_each l' body
  end.

(** ** The program *)

Section Agent.

Context (env : Env).

(** [page.extract_text() or ''] *)
Definition text_or_empty (page : Page) : string :=
  match extract_text page with
  | Some s => if String.eqb s "" then "" else s
  | None => ""
  end.

(** The loop of [extract_pdf_content] over the pages: the tables of a
    page are appended when the page has any. *)
Definition collect_tables (pages : list Page) : list Table :=
  fold_left
    (fun tables page =>
       let page_tables := extract_tables page in
       match page_tables with
       | [] => tables
       | _ :: _ => tables ++ page_tables
       end)
    pages [].

Definition extract_pdf_content (pdf_path : string) : Res PdfContent :=
  pages ← pdfplumber_open env pdf_path;
  let text := PyStr.join PyStr.nl (map text_or_empty pages) in
  let tables := collect_tables pages in
  mret {| pdf_text := text; pdf_tables := tables |}.

(** [get_expected_info]; the two dicts are given by their items. *)
Definition get_expected_info (csv_path : string) : Res ExpectedInfo :=
  df ← read_csv env csv_path;
  mret {| info_columns := columns df;
          info_shape := shape df;
          info_dtypes := combine (columns df) (dtypes df);
          info_sample_rows :=
            map (fun row => combine (columns df) row) (values (head 3 df)) |}.

Definition parser_path (target : string) : string :=
  "custom_parsers/" +:+ target +:+ "_parser.py".

(** How [f.write] names the type of an argument it refuses. *)
Definition write_arg_name (code : json) : string :=
  match code with
  | JNull => "None"
  | _ => type_name code
  end.

(** [write_code]. [code] is whatever the decoded arguments hold under
    the key [code]; opening the file for writing empties it, and
    [f.write] accepts a string only. *)
Definition write_code (target : string) (code : json) : M string :=
  let path := parser_path target in
  match open_w env path with
  | Some e => raise e
  | None =>
      fs ← get files;
      match code with
      | JStr s =>
          set_files (<[path := s]> fs) ;;
          record (EvWrite path) ;;
          mret ("Written to " +:+ path)
      | _ =>
          set_files (<[path := ""]> fs) ;;
          raise (mkExn TypeError
                   ("write() argument must be str, not " +:+ write_arg_name code))
      end
  end.

(** The message of [run_test] for a result that does not match, from
    the texts of the two shapes and of the two heads. *)
Definition mismatch_of (parsed_shape expected_shape parsed_head expected_head : string)
    : string :=
  "TEST FAILED: DataFrames do not match. Parsed shape: "
    +:+ parsed_shape
    +:+ ", Expected shape: " +:+ expected_shape
    +:+ ". Sample diff: Parsed head:" +:+ PyStr.nl
    +:+ parsed_head +:+ PyStr.nl
    +:+ "Expected head:" +:+ PyStr.nl
    +:+ expected_head.

(** The message of [run_test] for two frames that differ. *)
Definition mismatch_message (parsed_df expected_df : DataFrame) : string :=
  "TEST FAILED: DataFrames do not match. Parsed shape: "
    +:+ PyStr.of_shape (shape parsed_df)
    +:+ ", Expected shape: " +:+ PyStr.of_shape (shape expected_df)
    +:+ ". Sample diff: Parsed head:" +:+ PyStr.nl
    +:+ df_str env (head 5 parsed_df) +:+ PyStr.nl
    +:+ "Expected head:" +:+ PyStr.nl
    +:+ df_str env (head 5 expected_df).

(** The body of the second [try] of [run_test]: whatever [parse]
    returns is asked for its [equals], and, when the answer is false,
    for its [shape] and [head()]. *)
Definition compare (module : Module) (pdf_path csv_path : string) : Res string :=
  parsed_df ← parse module pdf_path;
  expected_df ← read_csv env csv_path;
  match parsed_df with
  | ODataFrame parsed_df =>
      if equals parsed_df expected_df then mret "TEST PASSED"
      else mret (mismatch_message parsed_df expected_df)
  | OOther ty =>
      Raise (mkExn AttributeError
               ("'" +:+ ty +:+ "' object has no attribute 'equals'"))
  | OEquals answer shape_str head_str =>
      same ← answer expected_df;
      if same : bool then mret "TEST PASSED"
      else
        parsed_shape ← shape_str;
        parsed_head ← head_str;
        mret (mismatch_of parsed_shape (PyStr.of_shape (shape expected_df))
                parsed_head (df_str env (head 5 expected_df)))
  end.

(** [run_test], on the files [fs] on disk. *)
Definition run_test (target pdf_path csv_path : string)
    (fs : gmap string string) : Res string :=
  let parser_path := parser_path target in
  match fs !! parser_path with
  | None => Ok "Parser file does not exist."
  | Some source =>
      match spec_from_file_location env (target +:+ "_parser") parser_path with
      | None => Ok ("Failed to load module spec for " +:+ parser_path +:+ ".")
      | Some spec =>
          match loader spec with
          | None => Ok ("No loader available for " +:+ parser_path +:+ ".")
          | Some ld =>
              match exec_module ld source with
              | Raise e =>
                  if caught_by e NameError then
                    Ok ("TEST FAILED: Parser module has invalid imports: "
                          +:+ exn_str e)
                  else Raise e
              | Ok module =>
                  match compare module pdf_path csv_path with
                  | Ok r => Ok r
                  | Raise e =>
                      if caught_by e Exception then
                        Ok ("TEST FAILED: " +:+ exn_str e)
                      else Raise e
                  end
              end
          end
      end
  end.

(** *** [run_agent] *)

Context (target : string).

Definition pdf_path : string := "data/" +:+ target +:+ "/" +:+ target +:+ "_sample.pdf".
Definition csv_path : string := "data/" +:+ target +:+ "/" +:+ target +:+ "_sample.csv".

(** The four executors held by [tool_map]. *)
Inductive Handler :=
| HGetPdfContent
| HGetExpectedInfo
| HWriteParserCode
| HRunTest.

Definition tool_get_pdf_content (tool_call : ToolCall) : M PdfContent :=
  lift (extract_pdf_content pdf_path).

Definition tool_get_expected_info (tool_call : ToolCall) : M ExpectedInfo :=
  lift (get_expected_info csv_path).

Definition tool_write_parser_code (tool_call : ToolCall) (attempts : nat)
    : M (string * nat) :=
  let attempts := attempts + 1 in
  if (3 <? attempts)%nat then
    mret ("Max attempts (3) reached. Cannot write more code.", attempts)
  else
    match (args ← json_loads env (tc_arguments tool_call);
           py_get args "code" (JStr "")) with
    | Raise e =>
        if caught_by e JSONDecodeError || caught_by e AttributeError then
          mret ("Failed to parse tool arguments: " +:+ exn_str e, attempts)
        else raise e
    | Ok code =>
        write_code target code ;;
        mret ("Parser code written successfully.", attempts)
    end.

Definition tool_run_test (tool_call : ToolCall) : M string :=
  fs ← get files;
  lift (run_test target pdf_path csv_path fs).

Definition tool_map : gmap string Handler :=
  <["get_pdf_content" := HGetPdfContent]>
  (<["get_expected_info" := HGetExpectedInfo]>
  (<["write_parser_code" := HWriteParserCode]>
  (<["run_test" := HRunTest]> ∅))).

(** [tool_map[func_name](tool_call)], a call with one argument. *)
Definition call_handler (h : Handler) (tool_call : ToolCall) : M ToolResult :=
  match h with
  | HGetPdfContent => c ← tool_get_pdf_content tool_call; mret (RPdf c)
  | HGetExpectedInfo => i ← tool_get_expected_info tool_call; mret (RInfo i)
  | HRunTest => s ← tool_run_test tool_call; mret (RStr s)
  | HWriteParserCode =>
      raise (mkExn TypeError
               "tool_write_parser_code() missing 1 required positional argument: 'attempts'")
  end.

(** [json.dumps(result)] and [str(result)] *)
Definition json_dumps (result : ToolResult) : Res string :=
  match result with
  | RStr s => Ok (PyStr.json_dumps_str s)
  | _ => json_dumps_dict env result
  end.

Definition str_result (result : ToolResult) : string :=
  match result with
  | RStr s => s
  | _ => str_dict env result
  end.

(** [tool_call.id if hasattr(tool_call, 'id') else "unknown"] *)
Definition id_or_unknown (tool_call : ToolCall) : option string :=
  if hasattr_id (tc_id tool_call) then id_value (tc_id tool_call)
  else Some "unknown".

(** The body of [for tool_call in message.tool_calls]. *)
Definition process_tool_call (tool_call : ToolCall) : M unit :=
  let func_name := tc_name tool_call in
  match tool_map !! func_name with
  | Some handler =>
      try_except
        (if negb (hasattr_id (tc_id tool_call)) || negb (truthy_id (tc_id tool_call)) then
           print ("Warning: Tool call for " +:+ func_name +:+ " missing tool_call_id") ;;
           append {| msg_role := tool;
                     msg_content := "Error: Tool call for " +:+ func_name
                                      +:+ " missing tool_call_id";
                     msg_tool_calls := None;
                     msg_tool_call_id := None;
                     msg_name := None |}
         else
           record (EvHandler func_name) ;;
           result ← (if String.eqb func_name "write_parser_code" then
                       attempts0 ← get attempts;
                       '(result, attempts1) ← tool_write_parser_code tool_call attempts0;
                       set_attempts attempts1 ;;
                       mret (RStr result)
                     else call_handler handler tool_call);
           dumped ← lift (json_dumps result);
           append {| msg_role := tool;
                     msg_content := dumped;
                     msg_tool_calls := None;
                     msg_tool_call_id := Some (id_value (tc_id tool_call));
                     msg_name := Some func_name |} ;;
           print ("Tool " +:+ func_name +:+ " executed: "
                    +:+ PyStr.take 100 (str_result result) +:+ "..."))
        (fun e =>
           if caught_by e Exception then
             Some (append {| msg_role := tool;
                             msg_content := "Tool error: " +:+ exn_str e;
                             msg_tool_calls := None;
                             msg_tool_call_id := Some (id_or_unknown tool_call);
                             msg_name := None |} ;;
                   print ("Tool " +:+ func_name +:+ " failed: " +:+ exn_str e))
           else None)
  | None =>
      append {| msg_role := tool;
                msg_content := "Unknown tool: " +:+ func_name;
                msg_tool_calls := None;
                msg_tool_call_id := Some (id_or_unknown tool_call);
                msg_name := None |}
  end.

(** How [run_agent] returns: from the completion branch, with the
    verdict of the final test, or after the loop. *)
Inductive Exit :=
| Finished (passed : bool)
| CeilingReached.

(** [content or ""] *)
Definition or_empty (content : option string) : string :=
  match content with Some s => s | None => "" end.

(** The branch of a message without tool calls. [Some x]: the function
    returns; [None]: the loop goes on. *)
Definition plain_message (message : ModelMessage) : M (option Exit) :=
  let content := or_empty (mm_content message) in
  append {| msg_role := assistant; msg_content := content;
            msg_tool_calls := None; msg_tool_call_id := None;
            msg_name := None |} ;;
  print ("Agent: " +:+ content) ;;
  if PyStr.contains "FINISH" (PyStr.upper content) then
    record EvFinalTest ;;
    fs ← get files;
    final_result ← lift (run_test target pdf_path csv_path fs);
    print ("Agent complete. Final test: " +:+ final_result) ;;
    if PyStr.contains "TEST PASSED" final_result then
      print "✅ Parser successful!" ;;
      mret (Some (Finished true))
    else
      print "❌ Max attempts reached, but parser written for manual fix." ;;
      mret (Some (Finished false))
  else mret None.

(** One pass through the body of the [while] loop. *)
Definition loop_body : M (option Exit) :=
  transcript ← get messages;
  record EvModel ;;
  message ← lift (chat_create env transcript);
  r ← match mm_tool_calls message with
      | Some (tc :: tcs) =>
          append {| msg_role := assistant;
                    msg_content := or_empty (mm_content message);
                    msg_tool_calls := Some (tc :: tcs);
                    msg_tool_call_id := None;
                    msg_name := None |} ;;
          for_each (tc :: tcs) process_tool_call ;;
          mret None
      | _ => plain_message message
      end;
  match r with
  | Some exit => mret (Some exit)
  | None =>
      i ← get iteration;
      set_iteration (i + 1) ;;
      mret None
  end.

Definition max_iterations : nat := 30.

(** [while iteration < max_iterations: ...] followed by the last
    [print]. [fuel] bounds the passes; [None] is returned when it runs
    out. *)
Fixpoint while_loop (fuel : nat) : M (option Exit) :=
  match fuel with
  | O => mret None
  | S fuel' =>
      i ← get iteration;
      if (i <? max_iterations)%nat then
        r ← loop_body;
        match r with
        | Some exit => mret (Some exit)
        | None => while_loop fuel'
        end
      else
        print "Max iterations reached." ;;
        mret (Some CeilingReached)
  end.

Definition system_prompt : string :=
  PyStr.join PyStr.nl [
    "You are a coding agent for writing bank statement PDF parsers.";
    "";
    "Target bank: " +:+ target;
    "";
    "Goal: Generate " +:+ target +:+ "_parser.py with:";
    "- Imports: MUST include `import pandas as pd` and `import pdfplumber`";
    "- Function: def parse(pdf_path: str) -> pd.DataFrame";
    "- The DataFrame must match the CSV schema exactly (rows, columns, values, dtypes)";
    "";
    "Use tools:";
    "1. Call get_pdf_content to inspect PDF (text/tables for " +:+ target
      +:+ "-specific format, e.g., transaction tables).";
    "2. Call get_expected_info for schema (columns like 'Date', 'Description', etc.; match exactly incl. dtypes).";
    "3. Plan: Analyze PDF structure (e.g., extract table from pages, parse dates/debits). Handle "
      +:+ target +:+ " quirks (e.g., multi-line descriptions).";
    "4. Generate FULL code string, starting with `import pandas as pd";
    "import pdfplumber";
    "";
    "def parse(pdf_path: str) -> pd.DataFrame:";
    "    ...`. Ensure robust (error handling, all pages processed).";
    "5. Call write_parser_code with the complete code string.";
    "6. Call run_test. If 'TEST PASSED', think " +:+ PyStr.dq +:+ "Success!"
      +:+ PyStr.dq +:+ " and FINISH.";
    "7. If test fails, analyze error (e.g., wrong columns, parsing bug), fix code, and rewrite (max 3 attempts). On 3rd fail, FINISH anyway.";
    "";
    "Output only tool calls or final thought + 'FINISH'. Keep code clean, typed, documented."
  ].

Definition initial_messages : list Message :=
  [ {| msg_role := system; msg_content := system_prompt;
       msg_tool_calls := None; msg_tool_call_id := None; msg_name := None |};
    {| msg_role := user;
       msg_content := "Begin: Write parser for " +:+ target +:+ " bank statements.";
       msg_tool_calls := None; msg_tool_call_id := None; msg_name := None |} ].

(** The state when the loop is entered, for the files [fs] on disk. *)
Definition initial_state (fs : gmap string string) : State :=
  {| messages := initial_messages; attempts := 0; iteration := 0;
     files := fs;
     stdout := ["Starting agent for " +:+ target +:+ "..."];
     calls := [] |}.

(** The state before anything has happened. *)
Definition blank_state (fs : gmap string string) : State :=
  {| messages := []; attempts := 0; iteration := 0; files := fs;
     stdout := []; calls := [] |}.

(** [run_agent(target)], started with the files [fs] on disk. The loop
    is given one more pass than it can use. *)
Definition run_agent (fs : gmap string string) : Res (option Exit) * State :=
  match getenv env "GROQ_API_KEY" with
  | None | Some "" =>
      (Raise (mkExn ValueError "GROQ_API_KEY not found in .env file."),
       blank_state fs)
  | Some _ =>
      if negb (sample_exists env pdf_path) || negb (sample_exists env csv_path) then
        (Raise (mkExn ValueError
                  ("Sample files not found for " +:+ target +:+ ". Ensure data/"
                     +:+ target +:+ "/" +:+ target +:+ "_sample.pdf and .csv exist.")),
         blank_state fs)
      else while_loop (S max_iterations) (initial_state fs)
  end.

End Agent.

(** ** Measures on a state *)

Definition is_model_call (ev : Event) : bool :=
  match ev with EvModel => true | _ => false end.

Definition is_write (ev : Event) : bool :=
  match ev with EvWrite _ => true | _ => false end.

Fixpoint count {A} (p : A -> bool) (l : list A) : nat :=
  match l with
  | [] => 0
  | x :: l' => (if p x then 1 else 0) + count p l'
  end.

(** Round-trips to the model and writes of the parser file that went
    through, so far. *)
Definition model_calls (st : State) : nat := count is_model_call (calls st).
Definition accepted_writes (st : State) : nat := count is_write (calls st).

(** The names of the catalog [tools] handed to the model. *)
Definition tools : list string :=
  ["get_pdf_content"; "get_expected_info"; "write_parser_code"; "run_test"].

(** A tool-result message answers an invocation: it has the role [tool]
    and, when the invocation carries a token, that token. *)
Definition answers (m : Message) (tool_call : ToolCall) : Prop :=
  msg_role m = tool /\
  forall s, tc_id tool_call = IdStr s -> s <> "" ->
            msg_tool_call_id m = Some (Some s).

(** The result appended for an invocation without a token. *)
Definition missing_token_message (func_name : string) : Message :=
  {| msg_role := tool;
     msg_content := "Error: Tool call for " +:+ func_name +:+ " missing tool_call_id";
     msg_tool_calls := None; msg_tool_call_id := None; msg_name := None |}.

(** The result appended for a name outside the catalog. *)
Definition unknown_tool_message (tool_call : ToolCall) : Message :=
  {| msg_role := tool;
     msg_content := "Unknown tool: " +:+ tc_name tool_call;
     msg_tool_calls := None;
     msg_tool_call_id := Some (id_or_unknown tool_call);
     msg_name := None |}.

(** The result appended for an executor that returned [result]. *)
Definition result_message (tool_call : ToolCall) (dumped : string) : Message :=
  {| msg_role := tool;
     msg_content := dumped;
     msg_tool_calls := None;
     msg_tool_call_id := Some (id_value (tc_id tool_call));
     msg_name := Some (tc_name tool_call) |}.

Definition refusal : string := "Max attempts (3) reached. Cannot write more code.".

(** Decoding the arguments of a write request, as the executor does. *)
Definition decode_code (env : Env) (tool_call : ToolCall) : Res json :=
  args ← json_loads env (tc_arguments tool_call);
  py_get args "code" (JStr "").

(** The bound kept by the attempt counter: every write that went
    through was counted, and there are at most three. *)
Definition writes_inv (st : State) : Prop :=
  accepted_writes st <= attempts st /\ accepted_writes st <= 3.

(** What a piece of the loop leaves as it was or only extends. *)
Record frame (st st' : State) : Prop := mkFrame {
  frame_iteration : iteration st' = iteration st;
  frame_model_calls : model_calls st' = model_calls st;
  frame_attempts : attempts st <= attempts st';
  frame_writes : writes_inv st -> writes_inv st';
  frame_messages : messages st `prefix_of` messages st'
}.

(** The state after an invocation without a token was answered. *)
Definition missing_token_state (tool_call : ToolCall) (st : State) : State :=
  push_message (missing_token_message (tc_name tool_call))
    (push_line ("Warning: Tool call for " +:+ tc_name tool_call
                  +:+ " missing tool_call_id") st).

(** The state after the write executor returned [text] without
    writing: the call is recorded, the counter moves up by one, the
    text is appended as the result and reported. *)
Definition write_answered (tool_call : ToolCall) (text : string) (st : State)
    : State :=
  push_line ("Tool " +:+ tc_name tool_call +:+ " executed: "
               +:+ PyStr.take 100 text +:+ "...")
    (push_message (result_message tool_call (PyStr.json_dumps_str text))
       (with_attempts (attempts st + 1)
          (push_event (EvHandler (tc_name tool_call)) st))).

(** The state once a plain message with the completion marker has
    been taken in and the final test is about to run. *)
Definition completion_state (content : string) (st : State) : State :=
  push_event EvFinalTest
    (push_line ("Agent: " +:+ content)
       (push_message
          {| msg_role := assistant; msg_content := content;
             msg_tool_calls := None; msg_tool_call_id := None;
             msg_name := None |}
          (push_event EvModel st))).

(** The line printed for the verdict of the final test. *)
Definition verdict_line (passed : bool) : string :=
  if passed then "✅ Parser successful!"
  else "❌ Max attempts reached, but parser written for manual fix.".

(** ** Sample runs *)

Module Sample.

Definition reference : DataFrame :=
  {| columns := ["Date"; "Balance"];
     index := [0; 1]%Z;
     dtypes := ["object"; "int64"];
     values := [[CStr "01-08-2024"; CInt 100]; [CStr "02-08-2024"; CInt 250]] |}.

Definition one_row : DataFrame :=
  {| columns := ["Date"; "Balance"];
     index := [0]%Z;
     dtypes := ["object"; "int64"];
     values := [[CStr "01-08-2024"; CInt 100]] |}.

Definition pages : list Page :=
  [ mkPage (Some "Statement") [[[Some "Date"; Some "Balance"]]];
    mkPage None [];
    mkPage (Some "Page 3") [[[Some "a"]]; [[Some "b"; None]]] ].

(** The text [{"code": v}]. *)
Definition code_args (v : string) : string :=
  "{" +:+ PyStr.dq +:+ "code" +:+ PyStr.dq +:+ ": " +:+ v +:+ "}".

Definition quoted (s : string) : string := PyStr.dq +:+ s +:+ PyStr.dq.

(** The decoder on the argument texts used below. *)
Definition loads (s : string) : Res json :=
  if String.eqb s (code_args "5") then Ok (JDict [("code", JInt 5)])
  else if String.eqb s (code_args (quoted "good")) then Ok (JDict [("code", JStr "good")])
  else if String.eqb s (code_args (quoted "short")) then Ok (JDict [("code", JStr "short")])
  else if String.eqb s (code_args (quoted "import tabula")) then
    Ok (JDict [("code", JStr "import tabula")])
  else if String.eqb s "[1]" then Ok (JList [JInt 1])
  else Raise (mkExn JSONDecodeError "Expecting value: line 1 column 1 (char 0)").

(** The interpreter on the sources used below: a module importing a
    package that is not installed, a module using [pd] without
    importing it, a parser that loses a row, and a correct parser. *)
Definition interpret (source : string) : Res Module :=
  if String.eqb source "import tabula" then
    Raise (mkExn ModuleNotFoundError "No module named 'tabula'")
  else if String.eqb source "pd.DataFrame()" then
    Raise (mkExn NameError "name 'pd' is not defined")
  else if String.eqb source "short" then
    Ok (mkModule (fun _ => Ok (ODataFrame one_row)))
  else Ok (mkModule (fun _ => Ok (ODataFrame reference))).

Definition is_assistant (m : Message) : bool :=
  match msg_role m with assistant => true | _ => false end.

(** A model that plays [script], one message per round, and then says
    it has finished. *)
Definition scripted (script : list ModelMessage) (transcript : list Message)
    : Res ModelMessage :=
  match nth_error script (count is_assistant transcript) with
  | Some m => Ok m
  | None => Ok (mkModelMessage (Some "Success! FINISH") None)
  end.

Definition env (script : list ModelMessage) : Env :=
  {| getenv := fun _ => Some "gsk";
     sample_exists := fun _ => true;
     chat_create := scripted script;
     pdfplumber_open := fun _ => Ok pages;
     read_csv := fun _ => Ok reference;
     df_str := fun df => "<" +:+ PyStr.of_shape (shape df) +:+ ">";
     spec_from_file_location := fun _ _ =>
       Some (mkModuleSpec (Some (mkLoader interpret)));
     json_loads := loads;
     json_dumps_dict := fun _ => Ok "{}";
     str_dict := fun _ => "{}";
     open_w := fun _ => None |}.

(** A model that never calls a tool and never says it has finished. *)
Definition chatter : list ModelMessage :=
  repeat (mkModelMessage (Some "Working on it.") None) 30.

Definition write (id : IdAttr) (arguments : string) : ToolCall :=
  mkToolCall id "write_parser_code" arguments.

Definition on_disk (source : string) : gmap string string :=
  {[ "custom_parsers/icici_parser.py" := source ]}.

Definition state (a : nat) (fs : gmap string string) : State :=
  {| messages := initial_messages "icici"; attempts := a; iteration := 0;
     files := fs; stdout := []; calls := [] |}.

End Sample.

(** ** The test of the generated parser ([tests/test_custom_parser.py]) *)

(** How pytest reports [test_parse]: passed, failed with a message (a
    call of [pytest.fail] or the failed [assert]), or ended by another
    exception. *)
Inductive TestOutcome :=
| TestPassed
| TestFailed (msg : string)
| TestError (e : PyExn).

(** [os.getenv("TEST_TARGET", "icici")] *)
Definition TARGET (env : Env) : string :=
  default "icici" (getenv env "TEST_TARGET").

(** The fixtures [pdf_path] and [csv_path] of the test. *)
Definition fixture_pdf_path (env : Env) : string :=
  "../data/" +:+ TARGET env +:+ "/" +:+ TARGET env +:+ "_sample.pdf".
Definition fixture_csv_path (env : Env) : string :=
  "../data/" +:+ TARGET env +:+ "/" +:+ TARGET env +:+ "_sample.csv".

(** The message of the [assert] of [test_parse]. *)
Definition assert_message (env : Env) (parsed_df expected_df : DataFrame) : string :=
  "Parsed DataFrame does not match expected CSV." +:+ PyStr.nl
    +:+ "Parsed shape: " +:+ PyStr.of_shape (shape parsed_df)
    +:+ ", Expected shape: " +:+ PyStr.of_shape (shape expected_df) +:+ PyStr.nl
    +:+ "Parsed head:" +:+ PyStr.nl +:+ df_str env (head 5 parsed_df) +:+ PyStr.nl
    +:+ "Expected head:" +:+ PyStr.nl +:+ df_str env (head 5 expected_df).

(** The same message from the texts of the two shapes and heads. *)
Definition assert_of (parsed_shape expected_shape parsed_head expected_head : string)
    : string :=
  "Parsed DataFrame does not match expected CSV." +:+ PyStr.nl
    +:+ "Parsed shape: " +:+ parsed_shape
    +:+ ", Expected shape: " +:+ expected_shape +:+ PyStr.nl
    +:+ "Parsed head:" +:+ PyStr.nl +:+ parsed_head +:+ PyStr.nl
    +:+ "Expected head:" +:+ PyStr.nl +:+ expected_head.

(** [test_parse(pdf_path, csv_path)], run where the files [fs] are
    seen from the working directory of the test. *)
Definition test_parse (env : Env) (fs : gmap string string) : TestOutcome :=
  let parser_path := TARGET env +:+ "_parser.py" in
  match fs !! parser_path with
  | None => TestFailed ("Parser file " +:+ parser_path +:+ " does not exist.")
  | Some source =>
      match spec_from_file_location env (TARGET env +:+ "_parser") parser_path with
      | None => TestFailed ("Failed to load module spec for " +:+ parser_path)
      | Some spec =>
          match loader spec with
          | None => TestFailed ("No loader available for " +:+ parser_path)
          | Some ld =>
              match exec_module ld source with
              | Raise e => TestError e
              | Ok module =>
                  match parse module (fixture_pdf_path env) with
                  | Raise e => TestError e
                  | Ok parsed_df =>
                      match read_csv env (fixture_csv_path env) with
                      | Raise e => TestError e
                      | Ok expected_df =>
                          match parsed_df with
                          | ODataFrame parsed_df =>
                              if equals parsed_df expected_df then TestPassed
                              else TestFailed
                                     (assert_message env parsed_df expected_df)
                          | OOther ty =>
                              TestError
                                (mkExn AttributeError
                                   ("'" +:+ ty +:+ "' object has no attribute 'equals'"))
                          | OEquals answer shape_str head_str =>
                              match answer expected_df with
                              | Raise e => TestError e
                              | Ok true => TestPassed
                              | Ok false =>
                                  match shape_str, head_str with
                                  | Raise e, _ => TestError e
                                  | Ok _, Raise e => TestError e
                                  | Ok parsed_shape, Ok parsed_head =>
                                      TestFailed
                                        (assert_of parsed_shape
                                           (PyStr.of_shape (shape expected_df))
                                           parsed_head
                                           (df_str env (head 5 expected_df)))
                                  end
                              end
                          end
                      end
                  end
              end
          end
      end
  end.

(** ** Further measures *)

(** A frame as pandas builds it: one dtype per column, one row label
    per row, one cell per column in every row. *)
Definition well_formed (df : DataFrame) : bool :=
  Nat.eqb (length (dtypes df)) (length (columns df))
  && Nat.eqb (length (index df)) (length (values df))
  && forallb (fun row => Nat.eqb (length row) (length (columns df))) (values df).

(** [obj.equals(expected)] holds, for what [parse] returned. *)
Definition answers_equal (obj : PyObj) (expected : DataFrame) : Prop :=
  match obj with
  | ODataFrame parsed => same_table parsed expected
  | OOther _ => False
  | OEquals answer _ _ => answer expected = Ok true
  end.

(** What a piece of the loop may do to the files: only the parser file
    of the target can change, and it is not removed. *)
Definition files_kept (target : string) (st st' : State) : Prop :=
  (forall p, p <> parser_path target -> files st' !! p = files st !! p) /\
  (is_Some (files st !! parser_path target) ->
   is_Some (files st' !! parser_path target)).

(** The message that opens a round of tool calls. *)
Definition request_message (message : ModelMessage) : Message :=
  {| msg_role := assistant;
     msg_content := or_empty (mm_content message);
     msg_tool_calls := mm_tool_calls message;
     msg_tool_call_id := None;
     msg_name := None |}.

(** The state after an executor of [func_name] raised [e] and the loop
    answered with the error. *)
Definition tool_error_state (tool_call : ToolCall) (e : PyExn) (st : State) : State :=
  push_line ("Tool " +:+ tc_name tool_call +:+ " failed: " +:+ exn_str e)
    (push_message
       {| msg_role := tool;
          msg_content := "Tool error: " +:+ exn_str e;
          msg_tool_calls := None;
          msg_tool_call_id := Some (id_or_unknown tool_call);
          msg_name := None |}
       (push_event (EvHandler (tc_name tool_call)) st)).

(** The pre-flight checks of [run_agent] pass. *)
Definition preflight_ok (env : Env) (target : string) : bool :=
  match getenv env "GROQ_API_KEY" with
  | None | Some "" => false
  | Some _ => sample_exists env (pdf_path target) && sample_exists env (csv_path target)
  end.

(** The state after the write executor wrote [source]: the call and
    the write are recorded, the file holds [source], the counter moves
    up by one, the confirmation is appended and reported. *)
Definition write_accepted (target : string) (tool_call : ToolCall)
    (source : string) (st : State) : State :=
  push_line ("Tool " +:+ tc_name tool_call +:+ " executed: "
               +:+ PyStr.take 100 "Parser code written successfully." +:+ "...")
    (push_message
       (result_message tool_call
          (PyStr.json_dumps_str "Parser code written successfully."))
       (with_attempts (attempts st + 1)
          (push_event (EvWrite (parser_path target))
             (with_files (<[parser_path target := source]> (files st))
                (push_event (EvHandler (tc_name tool_call)) st))))).

(** ** Further sample runs *)

Module Scenario.

(** The interpreter on further sources: a parser that divides by zero,
    a parser whose error text holds the pass marker, and a module that
    exits while it loads; any other source is a correct parser. *)
Definition interpret (source : string) : Res Module :=
  if String.eqb source "1/0" then
    Ok (mkModule (fun _ => Raise (mkExn ZeroDivisionError "division by zero")))
  else if String.eqb source "marker" then
    Ok (mkModule (fun _ =>
          Raise (mkExn ValueError "unexpected status: TEST PASSED")))
  else if String.eqb source "exit" then Raise (mkExn SystemExit "0")
  else Ok (mkModule (fun _ => Ok (ODataFrame Sample.reference))).

(** The decoder, also on the empty object. *)
Definition loads (s : string) : Res json :=
  if String.eqb s "{}" then Ok (JDict []) else Sample.loads s.

(** A model that plays [script] and whose service then fails. *)
Definition scripted (script : list ModelMessage) (transcript : list Message)
    : Res ModelMessage :=
  match nth_error script (count Sample.is_assistant transcript) with
  | Some m => Ok m
  | None => Raise (mkExn (OtherException "APIConnectionError") "Connection error.")
  end.

(** An environment with the key set and no other variable, whose sample
    PDF cannot be opened. *)
Definition env (script : list ModelMessage) : Env :=
  {| getenv := fun name =>
       if String.eqb name "GROQ_API_KEY" then Some "gsk" else None;
     sample_exists := fun _ => true;
     chat_create := scripted script;
     pdfplumber_open := fun path =>
       Raise (mkExn FileNotFoundError
                ("[Errno 2] No such file or directory: '" +:+ path +:+ "'"));
     read_csv := fun _ => Ok Sample.reference;
     df_str := fun df => "<" +:+ PyStr.of_shape (shape df) +:+ ">";
     spec_from_file_location := fun _ _ =>
       Some (mkModuleSpec (Some (mkLoader interpret)));
     json_loads := loads;
     json_dumps_dict := fun _ => Ok "{}";
     str_dict := fun _ => "{}";
     open_w := fun _ => None |}.

(** The same environment without the key. *)
Definition no_key : Env :=
  {| getenv := fun _ => None;
     sample_exists := sample_exists (env []);
     chat_create := chat_create (env []);
     pdfplumber_open := pdfplumber_open (env []);
     read_csv := read_csv (env []);
     df_str := df_str (env []);
     spec_from_file_location := spec_from_file_location (env []);
     json_loads := json_loads (env []);
     json_dumps_dict := json_dumps_dict (env []);
     str_dict := str_dict (env []);
     open_w := open_w (env []) |}.

Definition call (id func_name : string) : ToolCall :=
  mkToolCall (IdStr id) func_name "{}".

Definition finish : ModelMessage := mkModelMessage (Some "FINISH") None.

End Scenario.

(** A statement with an empty cell: the reference, as [read_csv] gives
    it, holds [NaN] there, and the candidate, built from the cells of a
    PDF table, holds [None]. *)
Module Gaps.

Definition reference : DataFrame :=
  {| columns := ["Date"; "Description"];
     index := [0; 1]%Z;
     dtypes := ["object"; "object"];
     values := [[CStr "01-08-2024"; CStr "Salary"]; [CStr "02-08-2024"; CNaN]] |}.

Definition parsed : DataFrame :=
  {| columns := ["Date"; "Description"];
     index := [0; 1]%Z;
     dtypes := ["object"; "object"];
     values := [[CStr "01-08-2024"; CStr "Salary"]; [CStr "02-08-2024"; CNone]] |}.

Definition interpret (source : string) : Res Module :=
  Ok (mkModule (fun _ => Ok (ODataFrame parsed))).

Definition env : Env :=
  {| getenv := getenv (Sample.env []);
     sample_exists := sample_exists (Sample.env []);
     chat_create := chat_create (Sample.env []);
     pdfplumber_open := pdfplumber_open (Sample.env []);
     read_csv := fun _ => Ok reference;
     df_str := df_str (Sample.env []);
     spec_from_file_location := fun _ _ =>
       Some (mkModuleSpec (Some (mkLoader interpret)));
     json_loads := json_loads (Sample.env []);
     json_dumps_dict := json_dumps_dict (Sample.env []);
     str_dict := str_dict (Sample.env []);
     open_w := open_w (Sample.env []) |}.

End Gaps.


(** * Properties *)

(** ** Strings *)

Lemma append_nil (s : string) : "" +:+ s = s.
Proof. reflexivity. Qed.

Lemma append_cons (c : ascii) (s t : string) :
  String c s +:+ t = String c (s +:+ t).
Proof. reflexivity. Qed.

Lemma append_assoc (a b c : string) : (a +:+ b) +:+ c = a +:+ (b +:+ c).
Proof.
  induction a as [|x a IH]; [done|].
  by rewrite !append_cons, IH.
Qed.

Lemma prefix_refl (s : string) : String.prefix s s = true.
Proof.
  induction s as [|c s IH]; simpl; [done|].
  by destruct (Ascii.ascii_dec c c).
Qed.

Lemma prefix_append_l (sub s after : string) :
  String.prefix sub s = true -> String.prefix sub (s +:+ after) = true.
Proof.
  revert s. induction sub as [|c sub IH]; intros s H.
  - by destruct (s +:+ after).
  - destruct s as [|d s]; [done|].
    rewrite append_cons. simpl in *.
    destruct (Ascii.ascii_dec c d); [by apply IH | done].
Qed.

Lemma contains_prefix (sub s : string) :
  String.prefix sub s = true -> PyStr.contains sub s = true.
Proof.
  intros H. destruct s; unfold PyStr.contains; fold PyStr.contains;
    by rewrite H.
Qed.

Lemma contains_self (s : string) : PyStr.contains s s = true.
Proof. apply contains_prefix, prefix_refl. Qed.

Lemma contains_append_l (sub s after : string) :
  PyStr.contains sub s = true -> PyStr.contains sub (s +:+ after) = true.
Proof.
  induction s as [|c s IH]; intros H.
  - simpl in H. rewrite orb_false_r in H. destruct sub; [|done].
    rewrite append_nil. by destruct after.
  - rewrite append_cons. simpl in *.
    apply orb_true_iff in H as [H|H].
    + apply (prefix_append_l _ (String c s) after) in H.
      rewrite append_cons in H. simpl in H. by rewrite H.
    + rewrite (IH H). apply orb_true_r.
Qed.

Lemma contains_append_r (sub before s : string) :
  PyStr.contains sub s = true -> PyStr.contains sub (before +:+ s) = true.
Proof.
  intros H. induction before as [|c before IH]; [done|].
  rewrite append_cons. simpl. rewrite IH. apply orb_true_r.
Qed.

Lemma contains_append (sub before after : string) :
  PyStr.contains sub (before +:+ sub +:+ after) = true.
Proof. apply contains_append_r, contains_append_l, contains_self. Qed.

(** *** The builtins on small inputs *)

Example upper_finish : PyStr.upper "Success! finish" = "SUCCESS! FINISH".
Proof. reflexivity. Qed.

Example contains_marker :
  PyStr.contains "FINISH" (PyStr.upper "All done, finish.") = true /\
  PyStr.contains "FINISH" (PyStr.upper "Still fixing the parser") = false.
Proof. split; reflexivity. Qed.

Example join_lines : PyStr.join ", " ["a"; ""; "b"] = "a, , b".
Proof. reflexivity. Qed.

Example shape_text : PyStr.of_shape (9, 5) = "(9, 5)".
Proof. reflexivity. Qed.

Example dumps_refusal :
  PyStr.json_dumps_str "Max attempts (3) reached. Cannot write more code."
  = PyStr.dq +:+ "Max attempts (3) reached. Cannot write more code." +:+ PyStr.dq.
Proof. reflexivity. Qed.

Example dumps_escapes :
  PyStr.json_dumps_str ("a" +:+ PyStr.nl +:+ PyStr.dq +:+ "b")
  = PyStr.dq +:+ "a\n\" +:+ PyStr.dq +:+ "b" +:+ PyStr.dq.
Proof. reflexivity. Qed.

Example exception_classes :
  issubclass ModuleNotFoundError Exception = true /\
  issubclass ModuleNotFoundError NameError = false /\
  issubclass UnboundLocalError NameError = true /\
  issubclass JSONDecodeError ValueError = true /\
  issubclass FileNotFoundError Exception = true /\
  issubclass (OtherException "EmptyDataError") NameError = false /\
  issubclass SystemExit Exception = false.
Proof. repeat split; reflexivity. Qed.

Example mismatch_text :
  mismatch_message (Sample.env []) Sample.one_row Sample.reference
  = "TEST FAILED: DataFrames do not match. Parsed shape: (1, 2), Expected shape: (2, 2). Sample diff: Parsed head:"
      +:+ PyStr.nl +:+ "<(1, 2)>" +:+ PyStr.nl
      +:+ "Expected head:" +:+ PyStr.nl +:+ "<(2, 2)>".
Proof. reflexivity. Qed.

(** ** The PDF content reader *)

Lemma text_or_empty_default (page : Page) :
  text_or_empty page = default "" (extract_text page).
Proof.
  unfold text_or_empty. destruct (extract_text page) as [s|]; simpl; [|done].
  by destruct (String.eqb_spec s "") as [->|].
Qed.

Lemma collect_tables_from (pages : list Page) (acc : list Table) :
  fold_left
    (fun tables page =>
       match extract_tables page with
       | [] => tables
       | _ :: _ => tables ++ extract_tables page
       end) pages acc
  = acc ++ concat (map extract_tables pages).
Proof.
  revert acc. induction pages as [|page pages IH]; intros acc; simpl.
  - by rewrite app_nil_r.
  - rewrite IH. destruct (extract_tables page) as [|t ts]; simpl; [done|].
    by rewrite <- app_assoc.
Qed.

Lemma collect_tables_concat (pages : list Page) :
  collect_tables pages = concat (map extract_tables pages).
Proof. unfold collect_tables. by rewrite collect_tables_from. Qed.

(** C9. For a PDF that opens, [extract_pdf_content] returns the texts of
    the pages joined by newlines, a page without text counting as the
    empty string, and the tables of all pages in one list, in page
    order; the tool built on it leaves the state of the run as it
    was. *)
Theorem extract_pdf_content_spec (env : Env) (target : string)
    (path : string) (pages : list Page) :
  pdfplumber_open env path = Ok pages ->
  extract_pdf_content env path
  = Ok {| pdf_text :=
            PyStr.join PyStr.nl (map (fun p => default "" (extract_text p)) pages);
          pdf_tables := concat (map extract_tables pages) |}
  /\ forall tool_call st, snd (tool_get_pdf_content env target tool_call st) = st.
Proof.
  intros Hopen. split.
  - unfold extract_pdf_content. rewrite Hopen. simpl.
    rewrite collect_tables_concat. do 2 f_equal. f_equal.
    apply map_ext. intros p. apply text_or_empty_default.
  - done.
Qed.

Lemma extract_pdf_content_witness :
  extract_pdf_content (Sample.env []) "data/icici/icici_sample.pdf"
  = Ok {| pdf_text := "Statement" +:+ PyStr.nl +:+ "" +:+ PyStr.nl +:+ "Page 3";
          pdf_tables := [[[Some "Date"; Some "Balance"]]; [[Some "a"]];
                         [[Some "b"; None]]] |}.
Proof.
  refine (proj1 (extract_pdf_content_spec (Sample.env []) "icici"
           "data/icici/icici_sample.pdf" Sample.pages _)).
  reflexivity.
Defined.

(** ** The test runner *)

Lemma same_number_spec (m1 e1 m2 e2 : Z) :
  same_number (m1, e1) (m2, e2) = true <->
  (m1 * 2 ^ (e1 - Z.min e1 e2) = m2 * 2 ^ (e2 - Z.min e1 e2))%Z.
Proof.
  unfold same_number. destruct (Z.leb_spec e1 e2) as [Hle|Hlt].
  - rewrite Z.min_l by done. rewrite Z.sub_diag, Z.pow_0_r, Z.mul_1_r.
    apply Z.eqb_eq.
  - rewrite Z.min_r by lia. rewrite Z.sub_diag, Z.pow_0_r, Z.mul_1_r.
    apply Z.eqb_eq.
Qed.

Lemma py_eq_number (a b : Cell) (x y : Z * Z) :
  number a = Some x -> number b = Some y -> py_eq a b = same_number x y.
Proof. unfold py_eq. by intros -> ->. Qed.

Lemma py_eq_same (a b : Cell) : py_eq a b = true -> same_cell a b.
Proof.
  unfold py_eq.
  destruct (number a) as [[m1 e1]|] eqn:Ha, (number b) as [[m2 e2]|] eqn:Hb;
    try discriminate.
  - intros Hsame. apply same_number_spec in Hsame.
    by apply (same_value a b m1 e1 m2 e2).
  - destruct a, b; try discriminate.
    + intros _. by apply same_missing.
    + intros Heq. apply String.eqb_eq in Heq as ->. apply same_text.
Qed.

(** The comparison of two cells decides [same_cell]. *)
Lemma cell_equal_same (a b : Cell) : cell_equal a b = true <-> same_cell a b.
Proof.
  unfold cell_equal. split.
  - intros [Heq|Hmiss]%orb_true_iff; [by apply py_eq_same|].
    apply andb_true_iff in Hmiss as [Ha Hb]. by apply same_missing.
  - intros [a' b' Ha Hb|t|a' b' m1 e1 m2 e2 Ha Hb Hval].
    + rewrite Ha, Hb. apply orb_true_r.
    + unfold py_eq. simpl. by rewrite String.eqb_refl.
    + rewrite (py_eq_number a' b' _ _ Ha Hb).
      by rewrite (proj2 (same_number_spec m1 e1 m2 e2) Hval).
Qed.

Lemma all2_Forall2 {A : Type} (f : A -> A -> bool) (R : A -> A -> Prop) :
  (forall x y, f x y = true <-> R x y) ->
  forall l l', all2 f l l' = true <-> Forall2 R l l'.
Proof.
  intros Hf l. induction l as [|x l IH]; intros [|y l']; simpl.
  - split; [constructor|done].
  - split; [done|]. intros H. inversion H.
  - split; [done|]. intros H. inversion H.
  - rewrite andb_true_iff, Hf, IH. split.
    + intros [? ?]. by constructor.
    + intros H. by inversion H; subst.
Qed.

(** [equals] decides [same_table]. *)
Lemma equals_same_table (a b : DataFrame) : equals a b = true <-> same_table a b.
Proof.
  unfold equals, same_table.
  rewrite !andb_true_iff, !bool_decide_eq_true.
  rewrite (all2_Forall2 (all2 cell_equal) (Forall2 same_cell)).
  - tauto.
  - apply all2_Forall2, cell_equal_same.
Qed.

Lemma same_cell_refl (c : Cell) : same_cell c c.
Proof.
  destruct c as [| |b|z|m e|t].
  - by apply same_missing.
  - by apply same_missing.
  - by apply (same_value _ _ (Z.b2z b) 0%Z (Z.b2z b) 0%Z).
  - by apply (same_value _ _ z 0%Z z 0%Z).
  - by apply (same_value _ _ m e m e).
  - apply same_text.
Qed.

(** A table is not told apart from itself. *)
Lemma same_table_refl (a : DataFrame) : same_table a a.
Proof.
  split_and!; try done.
  induction (values a) as [|row rows IH]; constructor; [|done].
  induction row as [|c row IHrow]; constructor; [|done].
  apply same_cell_refl.
Qed.

Lemma mismatch_message_failed (env : Env) (parsed expected : DataFrame) :
  mismatch_message env parsed expected <> "TEST PASSED".
Proof.
  intros Heq.
  assert (String.prefix "TEST F" (mismatch_message env parsed expected) = true)
    as Hpre by (by apply prefix_append_l).
  by rewrite Heq in Hpre.
Qed.

(** What [run_test] returns once the module has loaded. *)
Lemma run_test_loaded (env : Env) (target pdf csv : string)
    (fs : gmap string string) (source : string) (spec : ModuleSpec)
    (ld : Loader) (module : Module) :
  fs !! parser_path target = Some source ->
  spec_from_file_location env (target +:+ "_parser") (parser_path target) = Some spec ->
  loader spec = Some ld ->
  exec_module ld source = Ok module ->
  run_test env target pdf csv fs
  = match compare env module pdf csv with
    | Ok r => Ok r
    | Raise e =>
        if caught_by e Exception then Ok ("TEST FAILED: " +:+ exn_str e)
        else Raise e
    end.
Proof.
  intros Hfile Hspec Hld Hexec. unfold run_test.
  by rewrite Hfile, Hspec, Hld, Hexec.
Qed.

(** C3 (amended). When the generated module loads, its [parse] returns a
    table and the reference CSV is read, [run_test] returns "TEST PASSED"
    exactly when [equals] does not tell the two tables apart: the same
    column labels in the same order, the same row labels, the same dtype
    per column and, row by row, cells that are equal or both missing.
    Identical tables pass. Otherwise it returns the failure message,
    which contains the shape and the first rows of both. *)
Theorem run_test_passes_iff_same_table (env : Env) (target pdf csv : string)
    (fs : gmap string string) (source : string) (spec : ModuleSpec)
    (ld : Loader) (module : Module) (parsed expected : DataFrame) :
  fs !! parser_path target = Some source ->
  spec_from_file_location env (target +:+ "_parser") (parser_path target) = Some spec ->
  loader spec = Some ld ->
  exec_module ld source = Ok module ->
  parse module pdf = Ok (ODataFrame parsed) ->
  read_csv env csv = Ok expected ->
  (run_test env target pdf csv fs = Ok "TEST PASSED" <-> same_table parsed expected) /\
  (parsed = expected -> run_test env target pdf csv fs = Ok "TEST PASSED") /\
  (~ same_table parsed expected ->
   let failure := mismatch_message env parsed expected in
   run_test env target pdf csv fs = Ok failure /\
   PyStr.contains (PyStr.of_shape (shape parsed)) failure = true /\
   PyStr.contains (PyStr.of_shape (shape expected)) failure = true /\
   PyStr.contains (df_str env (head 5 parsed)) failure = true /\
   PyStr.contains (df_str env (head 5 expected)) failure = true).
Proof.
  intros Hfile Hspec Hld Hexec Hparse Hcsv.
  assert (run_test env target pdf csv fs
          = if equals parsed expected then Ok "TEST PASSED"
            else Ok (mismatch_message env parsed expected)) as ->.
  { rewrite (run_test_loaded env target pdf csv fs source spec ld module) by done.
    unfold compare. rewrite Hparse, Hcsv. simpl.
    by destruct (equals parsed expected). }
  split_and!.
  - destruct (equals parsed expected) eqn:Heq.
    + apply equals_same_table in Heq. by split.
    + split.
      * intros Hmsg. exfalso.
        apply (mismatch_message_failed env parsed expected). congruence.
      * intros Hsame. apply equals_same_table in Hsame. congruence.
  - intros ->.
    by rewrite (proj2 (equals_same_table expected expected) (same_table_refl expected)).
  - intros Hne failure.
    destruct (equals parsed expected) eqn:Heq.
    { by apply equals_same_table in Heq. }
    split; [done|]. unfold failure, mismatch_message.
    split; [|split; [|split]].
    + apply contains_append.
    + do 2 apply contains_append_r. apply contains_append.
    + do 5 apply contains_append_r. apply contains_append.
    + do 10 apply contains_append_r. apply contains_self.
Qed.

Lemma run_test_passes_iff_same_table_witness :
  run_test (Sample.env []) "icici" "data/icici/icici_sample.pdf"
    "data/icici/icici_sample.csv" (Sample.on_disk "short")
  = Ok (mismatch_message (Sample.env []) Sample.one_row Sample.reference).
Proof.
  refine (proj1 (proj2 (proj2 (run_test_passes_iff_same_table (Sample.env []) "icici"
            "data/icici/icici_sample.pdf" "data/icici/icici_sample.csv"
            (Sample.on_disk "short") "short"
            (mkModuleSpec (Some (mkLoader Sample.interpret)))
            (mkLoader Sample.interpret)
            (mkModule (fun _ => Ok (ODataFrame Sample.one_row)))
            Sample.one_row Sample.reference _ _ _ _ _ _)) _));
    try reflexivity.
  intros (_ & Hidx & _). simpl in Hidx. congruence.
Defined.

(** Against C3 as first stated: a candidate that holds [None] where the
    reference holds [NaN] is not identical to the reference, and passes. *)
Lemma run_test_passes_on_missing_values :
  Gaps.parsed <> Gaps.reference /\
  parse (mkModule (fun _ => Ok (ODataFrame Gaps.parsed))) "data/icici/icici_sample.pdf"
  = Ok (ODataFrame Gaps.parsed) /\
  read_csv Gaps.env "data/icici/icici_sample.csv" = Ok Gaps.reference /\
  run_test Gaps.env "icici" "data/icici/icici_sample.pdf"
    "data/icici/icici_sample.csv" (Sample.on_disk "gaps")
  = Ok "TEST PASSED".
Proof. split_and!; [discriminate|reflexivity|reflexivity|by vm_compute]. Qed.

(** What [run_test] returns when the load of the module raises. *)
Lemma run_test_load_raises (env : Env) (target pdf csv : string)
    (fs : gmap string string) (source : string) (spec : ModuleSpec)
    (ld : Loader) (e : PyExn) :
  fs !! parser_path target = Some source ->
  spec_from_file_location env (target +:+ "_parser") (parser_path target) = Some spec ->
  loader spec = Some ld ->
  exec_module ld source = Raise e ->
  run_test env target pdf csv fs
  = if caught_by e NameError then
      Ok ("TEST FAILED: Parser module has invalid imports: " +:+ exn_str e)
    else Raise e.
Proof.
  intros Hfile Hspec Hld Hexec. unfold run_test.
  by rewrite Hfile, Hspec, Hld, Hexec.
Qed.

(** C4 (amended). When the load of the generated module raises a
    [NameError] (the module uses a name it did not import), [run_test]
    does not let the error through: it returns the failure text that
    names the invalid imports. *)
Theorem run_test_load_error (env : Env) (target pdf csv : string)
    (fs : gmap string string) (source : string) (spec : ModuleSpec)
    (ld : Loader) (e : PyExn) :
  fs !! parser_path target = Some source ->
  spec_from_file_location env (target +:+ "_parser") (parser_path target) = Some spec ->
  loader spec = Some ld ->
  exec_module ld source = Raise e ->
  caught_by e NameError = true ->
  run_test env target pdf csv fs
  = Ok ("TEST FAILED: Parser module has invalid imports: " +:+ exn_str e).
Proof.
  intros Hfile Hspec Hld Hexec Hname.
  rewrite (run_test_load_raises env target pdf csv fs source spec ld e) by done.
  by rewrite Hname.
Qed.

Lemma run_test_load_error_witness :
  run_test (Sample.env []) "icici" "data/icici/icici_sample.pdf"
    "data/icici/icici_sample.csv" (Sample.on_disk "pd.DataFrame()")
  = Ok "TEST FAILED: Parser module has invalid imports: name 'pd' is not defined".
Proof.
  apply (run_test_load_error (Sample.env []) "icici"
           "data/icici/icici_sample.pdf" "data/icici/icici_sample.csv"
           (Sample.on_disk "pd.DataFrame()") "pd.DataFrame()"
           (mkModuleSpec (Some (mkLoader Sample.interpret)))
           (mkLoader Sample.interpret)
           (mkExn NameError "name 'pd' is not defined"));
    reflexivity.
Defined.

(** C4, as stated, fails: loading a module that imports a package that
    is not installed raises [ModuleNotFoundError], and the error leaves
    [run_test]. *)
Lemma run_test_import_error_escapes :
  run_test (Sample.env []) "icici" "data/icici/icici_sample.pdf"
    "data/icici/icici_sample.csv" (Sample.on_disk "import tabula")
  = Raise (mkExn ModuleNotFoundError "No module named 'tabula'").
Proof. reflexivity. Qed.

(** ** The loop *)

Lemma count_app {A} (p : A -> bool) (l1 l2 : list A) :
  count p (l1 ++ l2) = count p l1 + count p l2.
Proof. induction l1 as [|x l1 IH]; simpl; [done|]. rewrite IH. lia. Qed.

Lemma truthy_id_str (a : IdAttr) (s : string) :
  a = IdStr s -> s <> "" -> truthy_id a = true /\ hasattr_id a = true.
Proof. intros -> Hs. simpl. by destruct (String.eqb_spec s ""). Qed.

(** A token is missing or empty: there is no [id], it is [None], or it
    is the empty string. *)
Lemma truthy_id_false (a : IdAttr) :
  truthy_id a = false <-> a = NoId \/ a = IdNone \/ a = IdStr "".
Proof.
  split.
  - destruct a as [| |s]; simpl; intros H.
    + by left.
    + right. by left.
    + destruct (String.eqb_spec s "") as [Hs|Hs]; [|done].
      right. right. by rewrite Hs.
  - intros [->|[->| ->]]; reflexivity.
Qed.

Lemma falsy_id (a : IdAttr) :
  negb (hasattr_id a) || negb (truthy_id a) = negb (truthy_id a).
Proof. by destruct a. Qed.

Lemma tool_map_None (n : string) : n ∉ tools -> tool_map !! n = None.
Proof.
  unfold tools, tool_map. intros H.
  rewrite !not_elem_of_cons in H. destruct H as (H1 & H2 & H3 & H4 & _).
  by rewrite !lookup_insert_ne, lookup_empty by done.
Qed.

(** [tool_map] holds an executor for the names of the catalog and for
    no other name. *)
Lemma tool_map_Some (n : string) : n ∈ tools -> is_Some (tool_map !! n).
Proof.
  unfold tools. rewrite !elem_of_cons, elem_of_nil.
  intros [->|[->|[->|[->|[]]]]]; by eexists.
Qed.

Lemma frame_refl (st : State) : frame st st.
Proof. by split. Qed.

Lemma frame_trans (st1 st2 st3 : State) :
  frame st1 st2 -> frame st2 st3 -> frame st1 st3.
Proof.
  intros [] []. split; try congruence; try lia; try auto.
  by etrans.
Qed.

(** Case analysis on every branch of a piece of the program. *)
Ltac crunch :=
  repeat (simplify_eq/=; try case_match).

Ltac unfold_step :=
  unfold process_tool_call, try_except, tool_write_parser_code, call_handler,
    tool_get_pdf_content, tool_get_expected_info, tool_run_test, write_code,
    lift, raise, append, print, record, set_attempts, set_files, get,
    mbind, mret, M_bind, M_ret.

Ltac unfold_body :=
  unfold loop_body, plain_message, lift, raise, append, print, record,
    set_iteration, get, mbind, mret, M_bind, M_ret.

Ltac measures :=
  unfold model_calls, accepted_writes, push_line, push_message, push_event, with_attempts, with_files,
    with_iteration; simpl; rewrite ?count_app; simpl.

Ltac frame_goal :=
  first
    [ done
    | by apply prefix_app_r
    | by (rewrite <- app_assoc; apply prefix_app_r)
    | by (etrans; [apply prefix_app_r|done])
    | by (unfold writes_inv; measures; lia) ].

(** One invocation: the iteration counter and the number of requests to
    the model stay, the attempt counter does not go down, the bound on
    writes is kept, the transcript is extended, and when the invocation
    was answered, by exactly one message, which answers it. *)
Lemma process_tool_call_frame (env : Env) (target : string) (tc : ToolCall)
    (st : State) (r : Res unit) (st' : State) :
  process_tool_call env target tc st = (r, st') ->
  frame st st' /\
  (r = Ok tt -> exists m, messages st' = messages st ++ [m] /\ answers m tc).
Proof.
  unfold_step. intros H. crunch.
  all: repeat match goal with
       | H : (_ <? _)%nat = false |- _ => apply Nat.ltb_ge in H
       | H : (_ <? _)%nat = true |- _ => apply Nat.ltb_lt in H
       end.
  all: split;
    [split;
      [done | measures; lia | simpl; lia
      | unfold writes_inv; measures; lia
      | simpl;
        first [done | by apply prefix_app_r
              | rewrite <- app_assoc; by apply prefix_app_r]]
    |].
  all: try done.
  all: intros _; eexists; split; [simpl; reflexivity|]; split; [done|].
  all: intros tok Htok Hne; destruct (truthy_id_str _ _ Htok Hne) as [Ht Hh]; simpl.
  all: unfold id_or_unknown; rewrite ?Hh, ?Htok; try done.
  all: rewrite Ht, Hh in *; done.
Qed.

Lemma for_each_frame (env : Env) (target : string) (l : list ToolCall)
    (st : State) (r : Res unit) (st' : State) :
  for_each l (process_tool_call env target) st = (r, st') ->
  frame st st' /\
  (r = Ok tt ->
   exists ms, messages st' = messages st ++ ms /\ Forall2 answers ms l).
Proof.
  revert st. induction l as [|tc l IH]; intros st H.
  - injection H as <- <-. split; [apply frame_refl|].
    intros _. exists []. split; [by rewrite app_nil_r|]. by constructor.
  - simpl in H. unfold mbind, M_bind in H.
    destruct (process_tool_call env target tc st) as [r1 st1] eqn:H1.
    apply process_tool_call_frame in H1 as [Hf1 Hans1].
    destruct r1 as [[]|e].
    + apply IH in H as [Hf2 Hans2].
      split; [by eapply frame_trans|].
      intros Hr. destruct (Hans1 eq_refl) as (m & Hm & Hans).
      destruct (Hans2 Hr) as (ms & Hms & Hall).
      exists (m :: ms). split; [|by constructor].
      rewrite Hms, Hm. by rewrite <- app_assoc.
    + injection H as <- <-. split; [done|]. done.
Qed.

(** One round: one request to the model; the iteration counter moves
    exactly when the round neither returns nor raises. *)
Lemma loop_body_frame (env : Env) (target : string) (st : State)
    (r : Res (option Exit)) (st' : State) :
  loop_body env target st = (r, st') ->
  model_calls st' = model_calls st + 1 /\
  attempts st <= attempts st' /\
  (writes_inv st -> writes_inv st') /\
  messages st `prefix_of` messages st' /\
  iteration st' = (if r is Ok None then iteration st + 1 else iteration st) /\
  r <> Ok (Some CeilingReached).
Proof.
  unfold_body. intros H.
  destruct (chat_create env (messages st)) as [message|e] eqn:Hchat;
    cbv beta iota in H;
    [|injection H as <- <-; split_and!; frame_goal].
  destruct (mm_tool_calls message) as [[|tc tcs]|] eqn:Htcs.
  2: { cbv beta iota in H.
       destruct (for_each _ _ _) as [r1 st1] eqn:Hfor in H.
       apply for_each_frame in Hfor as [[Hi Hm Ha Hw Hp] _].
       destruct r1 as [[]|e]; simpl in H; injection H as <- <-; simpl.
       all: revert Hi Hm Ha Hw Hp; unfold writes_inv; measures; intros.
       all: split_and!; try lia; frame_goal. }
  all: crunch.
  all: split_and!; simpl; frame_goal.
Qed.

(** The loop, entered with the iteration counter within its bound. *)
Lemma while_loop_spec (env : Env) (target : string) (fuel : nat) (st : State)
    (r : Res (option Exit)) (st' : State) :
  while_loop env target fuel st = (r, st') ->
  iteration st <= max_iterations ->
  model_calls st' + iteration st <= model_calls st + max_iterations /\
  iteration st' <= max_iterations /\
  attempts st <= attempts st' /\
  (writes_inv st -> writes_inv st') /\
  messages st `prefix_of` messages st' /\
  (r = Ok (Some CeilingReached) ->
   iteration st' = max_iterations /\
   model_calls st' + iteration st = model_calls st + max_iterations /\
   last (stdout st') = Some "Max iterations reached.") /\
  (max_iterations - iteration st < fuel -> r <> Ok None).
Proof.
  revert st. induction fuel as [|fuel IH]; intros st H Hle.
  - injection H as <- <-. split_and!; try done; lia.
  - simpl in H. unfold get, mbind, M_bind in H. cbv beta iota in H.
    destruct (iteration st <? max_iterations)%nat eqn:Hlt.
    + apply Nat.ltb_lt in Hlt.
      destruct (loop_body env target st) as [r1 st1] eqn:Hbody.
      apply loop_body_frame in Hbody as (Hm & Ha & Hw & Hp & Hi & Hc).
      destruct r1 as [[exit|]|e].
      * injection H as <- <-. split_and!; try done; try lia.
      * apply IH in H as (Hm' & Hi' & Ha' & Hw' & Hp' & Hc' & Hf'); [|lia].
        split_and!; [lia | lia | lia | auto | by etrans | |].
        -- intros Hr. destruct (Hc' Hr) as (? & ? & ?).
           split_and!; [lia|lia|done].
        -- intros Hfuel. apply Hf'. lia.
      * injection H as <- <-. split_and!; try done; lia.
    + apply Nat.ltb_ge in Hlt.
      injection H as <- <-. clear IH.
      change (model_calls (push_line "Max iterations reached." st))
        with (model_calls st).
      split_and!; try done; try (simpl; lia).
      intros _. split_and!; try (simpl; lia). simpl. by rewrite last_snoc.
Qed.

(** The iteration counter reaches its bound only when the loop is left
    through its end: a round that returns or raises leaves the counter
    below the bound. *)
Lemma while_loop_ceiling (env : Env) (target : string) (fuel : nat) (st : State)
    (r : Res (option Exit)) (st' : State) :
  while_loop env target fuel st = (r, st') ->
  iteration st <= max_iterations ->
  max_iterations - iteration st < fuel ->
  iteration st' = max_iterations ->
  r = Ok (Some CeilingReached).
Proof.
  revert st. induction fuel as [|fuel IH]; intros st H Hle Hfuel Hend.
  - lia.
  - simpl in H. unfold get, mbind, M_bind in H. cbv beta iota in H.
    destruct (iteration st <? max_iterations)%nat eqn:Hlt.
    + apply Nat.ltb_lt in Hlt.
      destruct (loop_body env target st) as [r1 st1] eqn:Hbody.
      apply loop_body_frame in Hbody as (_ & _ & _ & _ & Hi & _).
      destruct r1 as [[exit|]|e].
      * injection H as <- <-. lia.
      * apply IH in H; [done|lia|lia|done].
      * injection H as <- <-. lia.
    + by injection H as <- <-.
Qed.

(** C8. An invocation whose name is not in the catalog is answered by
    an "Unknown tool" result appended to the transcript; nothing is
    raised, nothing else changes, and the loop goes on with the
    invocations that follow. *)
Theorem unknown_tool_result (env : Env) (target : string) (tc : ToolCall)
    (st : State) (rest : list ToolCall) :
  tc_name tc ∉ tools ->
  process_tool_call env target tc st
  = (Ok tt, push_message (unknown_tool_message tc) st) /\
  for_each (tc :: rest) (process_tool_call env target) st
  = for_each rest (process_tool_call env target)
      (push_message (unknown_tool_message tc) st).
Proof.
  intros H.
  assert (process_tool_call env target tc st
          = (Ok tt, push_message (unknown_tool_message tc) st)) as Hstep.
  { unfold process_tool_call. by rewrite (tool_map_None _ H). }
  split; [done|]. simpl. unfold mbind, M_bind. by rewrite Hstep.
Qed.

Lemma unknown_tool_result_witness :
  process_tool_call (Sample.env []) "icici"
    (mkToolCall (IdStr "call_9") "fetch_rates" "{}") (Sample.state 0 ∅)
  = (Ok tt,
     push_message
       {| msg_role := tool; msg_content := "Unknown tool: fetch_rates";
          msg_tool_calls := None; msg_tool_call_id := Some (Some "call_9");
          msg_name := None |}
       (Sample.state 0 ∅)).
Proof.
  refine (proj1 (unknown_tool_result (Sample.env []) "icici"
            (mkToolCall (IdStr "call_9") "fetch_rates" "{}")
            (Sample.state 0 ∅) [] _)).
  apply (bool_decide_unpack _). vm_compute. exact I.
Defined.

(** C6 (amended). An invocation whose token is missing or empty never
    reaches an executor: no call is recorded, the attempt counter and
    the files stay, nothing is raised. When it names a tool of the
    catalog, the loop prints a warning and appends the error result that
    reports the missing token. *)
Theorem missing_token_skips_handler (env : Env) (target : string)
    (tc : ToolCall) (st : State) :
  truthy_id (tc_id tc) = false ->
  (forall r st', process_tool_call env target tc st = (r, st') ->
     r = Ok tt /\ calls st' = calls st /\ attempts st' = attempts st /\
     files st' = files st) /\
  (tc_name tc ∈ tools ->
   process_tool_call env target tc st = (Ok tt, missing_token_state tc st)).
Proof.
  intros Hid. unfold process_tool_call, try_except.
  rewrite falsy_id, Hid. simpl.
  split.
  - intros r st'. destruct (tool_map !! tc_name tc); intros [= <- <-]; done.
  - intros [h ->]%tool_map_Some. done.
Qed.

Lemma missing_token_skips_handler_witness :
  process_tool_call (Sample.env []) "icici"
    (Sample.write (IdStr "") (Sample.code_args (Sample.quoted "good")))
    (Sample.state 0 ∅)
  = (Ok tt,
     missing_token_state
       (Sample.write (IdStr "") (Sample.code_args (Sample.quoted "good")))
       (Sample.state 0 ∅)).
Proof.
  refine (proj2 (missing_token_skips_handler (Sample.env []) "icici"
            (Sample.write (IdStr "") (Sample.code_args (Sample.quoted "good")))
            (Sample.state 0 ∅) _) _).
  - reflexivity.
  - apply (bool_decide_unpack _). vm_compute. exact I.
Defined.

(** C6, as stated, fails: an invocation without a token whose name is
    not in the catalog is answered by the "Unknown tool" result, not by
    the result that reports the missing token. *)
Lemma missing_token_unknown_name :
  let request := mkToolCall (IdStr "") "fetch_rates" "{}" in
  let st := Sample.state 0 ∅ in
  truthy_id (tc_id request) = false /\
  process_tool_call (Sample.env []) "icici" request st
  = (Ok tt,
     push_message
       {| msg_role := tool; msg_content := "Unknown tool: fetch_rates";
          msg_tool_calls := None; msg_tool_call_id := Some (Some "");
          msg_name := None |} st) /\
  process_tool_call (Sample.env []) "icici" request st
  <> (Ok tt, missing_token_state request st).
Proof.
  split_and!; try reflexivity.
  intros H. apply (f_equal (fun p => stdout (snd p))) in H.
  vm_compute in H. discriminate H.
Qed.

(** C5 (amended). The results appended for the invocations of a round
    are one per invocation, in order, each with the role [tool] and,
    when the invocation carries a non-empty token, with that token; and
    a round only appends to the transcript. *)
Theorem transcript_append_only (env : Env) (target : string) :
  (forall l st st',
     for_each l (process_tool_call env target) st = (Ok tt, st') ->
     exists ms, messages st' = messages st ++ ms /\ Forall2 answers ms l) /\
  (forall st r st',
     loop_body env target st = (r, st') ->
     messages st `prefix_of` messages st').
Proof.
  split.
  - intros l st st' H. apply for_each_frame in H as [_ H]. by apply H.
  - intros st r st' H. by apply loop_body_frame in H as (_ & _ & _ & H & _).
Qed.

Lemma transcript_append_only_witness :
  let requests :=
    [mkToolCall (IdStr "call_1") "run_test" "{}";
     mkToolCall (IdStr "call_2") "fetch_rates" "{}"] in
  let st := Sample.state 0 (Sample.on_disk "good") in
  exists ms,
    messages (snd (for_each requests (process_tool_call (Sample.env []) "icici") st))
    = messages st ++ ms /\
    Forall2 answers ms requests.
Proof.
  intros requests st.
  apply (proj1 (transcript_append_only (Sample.env []) "icici") requests st).
  vm_compute. reflexivity.
Defined.

(** C5, as stated, fails: the result appended for an invocation with an
    empty token carries no token. *)
Lemma result_without_token :
  let request := mkToolCall (IdStr "") "run_test" "{}" in
  let st := Sample.state 0 (Sample.on_disk "good") in
  let st' := snd (process_tool_call (Sample.env []) "icici" request st) in
  messages st' = messages st ++ [missing_token_message "run_test"] /\
  msg_role (missing_token_message "run_test") = tool /\
  msg_tool_call_id (missing_token_message "run_test") = None.
Proof. vm_compute. done. Qed.


Lemma write_lookup : tool_map !! "write_parser_code" = Some HWriteParserCode.
Proof. reflexivity. Qed.

(** C1 (amended). In every run at most three writes of the parser file
    go through. A write request that carries a token and arrives when
    the attempt counter has reached 3 is refused with the fixed message:
    the file and the number of writes stay, the counter moves on, the
    loop continues; and the counter never goes down, so the refusals
    last. *)
Theorem write_attempts_capped (env : Env) (target : string) :
  (forall fs, accepted_writes (snd (run_agent env target fs)) <= 3) /\
  (forall tc st,
     tc_name tc = "write_parser_code" -> truthy_id (tc_id tc) = true ->
     3 <= attempts st ->
     process_tool_call env target tc st = (Ok tt, write_answered tc refusal st) /\
     files (write_answered tc refusal st) = files st /\
     accepted_writes (write_answered tc refusal st) = accepted_writes st) /\
  (forall tc st r st',
     process_tool_call env target tc st = (r, st') -> attempts st <= attempts st').
Proof.
  split_and!.
  - intros fs. unfold run_agent.
    destruct (getenv env "GROQ_API_KEY") as [[|c key]|];
      try (unfold accepted_writes; simpl; lia).
    destruct (negb (sample_exists env (pdf_path target))
              || negb (sample_exists env (csv_path target)));
      try (unfold accepted_writes; simpl; lia).
    destruct (while_loop _ _ _ _) as [r st] eqn:Hloop.
    apply while_loop_spec in Hloop as (_ & _ & _ & Hw & _);
      [|simpl; unfold max_iterations; lia].
    simpl. apply Hw. unfold writes_inv, accepted_writes. simpl. lia.
  - intros tc st Hname Hid Hfull.
    split; [|split; [done|]]. 2: { unfold write_answered. measures. lia. }
    unfold process_tool_call, try_except. rewrite Hname, write_lookup.
    rewrite falsy_id, Hid. simpl.
    unfold tool_write_parser_code, mbind, M_bind, get, record. simpl.
    destruct (3 <? attempts st + 1)%nat eqn:Hlt;
      [|apply Nat.ltb_ge in Hlt; lia].
    simpl. unfold write_answered, result_message. by rewrite Hname.
  - intros tc st r st' H. by apply process_tool_call_frame in H as [[] _].
Qed.

Lemma write_attempts_capped_witness :
  process_tool_call (Sample.env []) "icici"
    (Sample.write (IdStr "call_4") (Sample.code_args (Sample.quoted "good")))
    (Sample.state 3 (Sample.on_disk "short"))
  = (Ok tt,
     write_answered
       (Sample.write (IdStr "call_4") (Sample.code_args (Sample.quoted "good")))
       refusal (Sample.state 3 (Sample.on_disk "short"))).
Proof.
  refine (proj1 (proj1 (proj2 (write_attempts_capped (Sample.env []) "icici"))
            (Sample.write (IdStr "call_4") (Sample.code_args (Sample.quoted "good")))
            (Sample.state 3 (Sample.on_disk "short")) _ _ _));
    [reflexivity | reflexivity | simpl; lia].
Defined.

(** C1, as stated, fails. When the first write request of a run has an
    empty token it is answered without being counted, and the fourth
    write request of the run is accepted: its code is written to the
    parser file. The same happens when the first request is counted by
    the executor but the executor then raises (its [code] is not a
    string). *)
Lemma fourth_write_request_accepted :
  let good := Sample.code_args (Sample.quoted "good") in
  let fourth :=
    Sample.write (IdStr "call_4") (Sample.code_args (Sample.quoted "short")) in
  let run first :=
    snd (for_each
           [first; Sample.write (IdStr "call_2") good;
            Sample.write (IdStr "call_3") good; fourth]
           (process_tool_call (Sample.env []) "icici") (Sample.state 0 ∅)) in
  let written st' :=
    files st' !! "custom_parsers/icici_parser.py" = Some "short" /\
    last (messages st')
    = Some (result_message fourth
              (PyStr.json_dumps_str "Parser code written successfully.")) /\
    accepted_writes st' = 3 in
  written (run (Sample.write (IdStr "") good)) /\
  written (run (Sample.write (IdStr "call_1") (Sample.code_args "5"))).
Proof. vm_compute. done. Qed.

(** C10 (amended). Whenever the write executor returns, the counter it
    returns is one more than the counter it was given. So a request
    whose arguments fail to decode with an error the executor catches
    ([JSONDecodeError] or [AttributeError]) uses up one attempt: no file
    is written and the result reports the decoding failure. *)
Theorem decode_failure_consumes_attempt (env : Env) (target : string) :
  (forall tc a st text a' st',
     tool_write_parser_code env target tc a st = (Ok (text, a'), st') ->
     a' = a + 1) /\
  (forall tc st e,
     tc_name tc = "write_parser_code" -> truthy_id (tc_id tc) = true ->
     attempts st < 3 ->
     decode_code env tc = Raise e ->
     caught_by e JSONDecodeError || caught_by e AttributeError = true ->
     let text := "Failed to parse tool arguments: " +:+ exn_str e in
     process_tool_call env target tc st = (Ok tt, write_answered tc text st) /\
     attempts (write_answered tc text st) = attempts st + 1 /\
     files (write_answered tc text st) = files st).
Proof.
  split.
  - intros tc a st text a' st'.
    unfold tool_write_parser_code, write_code, raise, set_files, record, get,
      mbind, mret, M_bind, M_ret.
    intros H. crunch. all: done.
  - intros tc st e Hname Hid Hlt Hdecode Hcaught text.
    split; [|done].
    unfold process_tool_call, try_except. rewrite Hname, write_lookup.
    rewrite falsy_id, Hid. simpl.
    unfold tool_write_parser_code, mbind, M_bind, get, record. simpl.
    destruct (3 <? attempts st + 1)%nat eqn:Hfull;
      [apply Nat.ltb_lt in Hfull; lia|].
    unfold decode_code, mbind in Hdecode. rewrite Hdecode, Hcaught. simpl.
    unfold write_answered, result_message. by rewrite Hname.
Qed.

Lemma decode_failure_consumes_attempt_witness :
  process_tool_call (Sample.env []) "icici"
    (Sample.write (IdStr "call_1") "{code: ") (Sample.state 0 ∅)
  = (Ok tt,
     write_answered (Sample.write (IdStr "call_1") "{code: ")
       "Failed to parse tool arguments: Expecting value: line 1 column 1 (char 0)"
       (Sample.state 0 ∅)).
Proof.
  refine (proj1 (proj2 (decode_failure_consumes_attempt (Sample.env []) "icici")
            (Sample.write (IdStr "call_1") "{code: ") (Sample.state 0 ∅)
            (mkExn JSONDecodeError "Expecting value: line 1 column 1 (char 0)")
            _ _ _ _ _));
    [reflexivity | reflexivity | simpl; lia | reflexivity | reflexivity].
Defined.

(** C10, as stated, fails: a request whose [code] is not a string makes
    the executor raise after it has emptied the file; the counter of the
    run is left where it was. *)
Lemma failed_write_not_counted :
  let request := Sample.write (IdStr "call_1") (Sample.code_args "5") in
  let st := Sample.state 0 (Sample.on_disk "good") in
  let st' := snd (process_tool_call (Sample.env []) "icici" request st) in
  calls st' = [EvHandler "write_parser_code"] /\
  attempts st' = attempts st /\
  files st' !! "custom_parsers/icici_parser.py" = Some "" /\
  last (messages st')
  = Some {| msg_role := tool;
            msg_content := "Tool error: write() argument must be str, not int";
            msg_tool_calls := None;
            msg_tool_call_id := Some (Some "call_1");
            msg_name := None |}.
Proof. vm_compute. done. Qed.

(** C2. In every run the model is asked at most 30 times, and the run
    ends: by an exception, by the completion branch, or after the loop.
    When it ends after the loop, 30 rounds were made and the last line
    printed is "Max iterations reached."; and when the 30th round is
    over without a return or an exception (the iteration counter is 30),
    the run does end after the loop: it reports the ceiling and returns
    normally, raising nothing. *)
Theorem agent_loop_bounded (env : Env) (target : string)
    (fs : gmap string string) :
  model_calls (snd (run_agent env target fs)) <= 30 /\
  fst (run_agent env target fs) <> Ok None /\
  (fst (run_agent env target fs) = Ok (Some CeilingReached) ->
   model_calls (snd (run_agent env target fs)) = 30 /\
   iteration (snd (run_agent env target fs)) = 30 /\
   last (stdout (snd (run_agent env target fs))) = Some "Max iterations reached.") /\
  (iteration (snd (run_agent env target fs)) = 30 ->
   fst (run_agent env target fs) = Ok (Some CeilingReached)).
Proof.
  assert (forall e : PyExn,
    model_calls (blank_state fs) <= 30 /\
    @Raise (option Exit) e <> Ok None /\
    (@Raise (option Exit) e = Ok (Some CeilingReached) ->
     model_calls (blank_state fs) = 30 /\
     iteration (blank_state fs) = 30 /\
     last (stdout (blank_state fs)) = Some "Max iterations reached.") /\
    (iteration (blank_state fs) = 30 ->
     @Raise (option Exit) e = Ok (Some CeilingReached)))
    as Hpreflight.
  { intros e. split_and!; [unfold model_calls; simpl; lia | done | done |].
    simpl. lia. }
  unfold run_agent.
  destruct (getenv env "GROQ_API_KEY") as [[|c key]|]; try apply Hpreflight.
  destruct (negb (sample_exists env (pdf_path target))
            || negb (sample_exists env (csv_path target)));
    try apply Hpreflight.
  destruct (while_loop _ _ _ _) as [r st] eqn:Hloop.
  pose proof (while_loop_ceiling _ _ _ _ _ _ Hloop) as Hceiling.
  apply while_loop_spec in Hloop as (Hm & Hi & _ & _ & _ & Hc & Hf);
    [|simpl; unfold max_iterations; lia].
  unfold max_iterations in *. simpl in *.
  change (model_calls (initial_state target fs)) with 0 in *.
  split_and!; [lia | apply Hf; lia | |].
  - intros Hr. destruct (Hc Hr) as (? & ? & ?). split_and!; [lia|lia|done].
  - intros Hend. apply Hceiling; [lia|lia|done].
Qed.

Lemma agent_loop_bounded_witness :
  model_calls (snd (run_agent (Sample.env Sample.chatter) "icici" ∅)) = 30 /\
  iteration (snd (run_agent (Sample.env Sample.chatter) "icici" ∅)) = 30 /\
  last (stdout (snd (run_agent (Sample.env Sample.chatter) "icici" ∅)))
  = Some "Max iterations reached.".
Proof.
  apply (proj1 (proj2 (proj2 (agent_loop_bounded (Sample.env Sample.chatter) "icici" ∅)))).
  vm_compute. reflexivity.
Defined.

(** What the loop does in a round where the model answers without tool
    calls and with the completion marker: the final test is run on the
    files as they are, and the run ends with its verdict or with the
    exception it raises. *)
Lemma completion_round (env : Env) (target : string) (st : State)
    (message : ModelMessage) (fuel : nat) :
  iteration st < max_iterations ->
  chat_create env (messages st) = Ok message ->
  mm_tool_calls message = None \/ mm_tool_calls message = Some [] ->
  PyStr.contains "FINISH" (PyStr.upper (or_empty (mm_content message))) = true ->
  let st1 := completion_state (or_empty (mm_content message)) st in
  while_loop env target (S fuel) st
  = match run_test env target (pdf_path target) (csv_path target) (files st) with
    | Ok final_result =>
        let passed := PyStr.contains "TEST PASSED" final_result in
        (Ok (Some (Finished passed)),
         push_line (verdict_line passed)
           (push_line ("Agent complete. Final test: " +:+ final_result) st1))
    | Raise e => (Raise e, st1)
    end.
Proof.
  intros Hlt Hchat Htcs Hfin st1.
  apply Nat.ltb_lt in Hlt.
  simpl. unfold get, mbind, M_bind. cbv beta iota. rewrite Hlt.
  unfold_body. rewrite Hchat. cbv beta iota.
  destruct Htcs as [Htcs|Htcs]; rewrite Htcs; cbv beta iota;
    rewrite Hfin; simpl;
    destruct (run_test env target (pdf_path target) (csv_path target) (files st))
      as [final_result|e]; simpl; try done;
    by destruct (PyStr.contains "TEST PASSED" final_result).
Qed.




(** * Further properties *)

(** ** The schema reader *)

Lemma combine_fst {A B} (l : list A) (l' : list B) :
  length l = length l' -> map fst (combine l l') = l.
Proof.
  revert l'. induction l as [|x l IH]; intros [|y l'] H; simpl in *; try done.
  f_equal. apply IH. lia.
Qed.

Lemma combine_snd {A B} (l : list A) (l' : list B) :
  length l = length l' -> map snd (combine l l') = l'.
Proof.
  revert l'. induction l as [|x l IH]; intros [|y l'] H; simpl in *; try done.
  f_equal. apply IH. lia.
Qed.

Lemma well_formed_spec (df : DataFrame) :
  well_formed df = true ->
  length (dtypes df) = length (columns df) /\
  length (index df) = length (values df) /\
  Forall (fun row => length row = length (columns df)) (values df).
Proof.
  unfold well_formed. rewrite !andb_true_iff, !Nat.eqb_eq, forallb_forall.
  intros [[H1 H2] H3]. split_and!; [done|done|].
  apply List.Forall_forall. intros row Hin. apply Nat.eqb_eq. by apply H3.
Qed.

(** X1. For a reference CSV that is read into a well-formed frame,
    [get_expected_info] returns the column labels in file order, the
    shape (rows, columns), one dtype per column under its label, and the
    first three rows (all of them when there are fewer), each as a dict
    whose keys are the column labels in order and whose values are the
    cells of the row. *)
Theorem get_expected_info_spec (env : Env) (csv : string) (df : DataFrame) :
  read_csv env csv = Ok df ->
  well_formed df = true ->
  exists info,
    get_expected_info env csv = Ok info /\
    info_columns info = columns df /\
    info_shape info = (length (values df), length (columns df)) /\
    map fst (info_dtypes info) = columns df /\
    map snd (info_dtypes info) = dtypes df /\
    length (info_sample_rows info) = Nat.min 3 (length (values df)) /\
    Forall (fun row => map fst row = columns df) (info_sample_rows info) /\
    map (map snd) (info_sample_rows info) = firstn 3 (values df).
Proof.
  intros Hread (Hd & Hi & Hrows)%well_formed_spec.
  unfold get_expected_info. rewrite Hread. simpl.
  eexists. split; [reflexivity|]. simpl.
  assert (Forall (fun row => length row = length (columns df))
            (firstn 3 (values df))) as Hhead.
  { by apply Forall_take. }
  split_and!.
  - done.
  - unfold shape. by rewrite Hi.
  - by apply combine_fst.
  - by apply combine_snd.
  - rewrite length_map. apply List.length_firstn.
  - apply List.Forall_map. eapply List.Forall_impl; [|exact Hhead].
    intros row Hrow. by apply combine_fst.
  - rewrite map_map. induction Hhead as [|row rows Hrow _ IH]; [done|].
    simpl. rewrite IH. f_equal. by apply combine_snd.
Qed.

Lemma get_expected_info_spec_witness :
  exists info,
    get_expected_info (Sample.env []) "data/icici/icici_sample.csv" = Ok info /\
    info_columns info = ["Date"; "Balance"] /\
    info_shape info = (2, 2) /\
    map fst (info_dtypes info) = ["Date"; "Balance"] /\
    map snd (info_dtypes info) = ["object"; "int64"] /\
    length (info_sample_rows info) = 2 /\
    Forall (fun row => map fst row = ["Date"; "Balance"]) (info_sample_rows info) /\
    map (map snd) (info_sample_rows info) = values Sample.reference.
Proof.
  apply (get_expected_info_spec (Sample.env []) "data/icici/icici_sample.csv"
           Sample.reference); reflexivity.
Defined.

(** ** Writing the parser file *)

(** X2. [write_code] overwrites: after two writes for a target the
    second write reports its path, the parser file holds the second
    source, and the files are the same as if only the second write had
    been made. *)
Theorem write_code_overwrites (env : Env) (target a b : string) (st : State) :
  open_w env (parser_path target) = None ->
  let st1 := snd (write_code env target (JStr a) st) in
  let st2 := snd (write_code env target (JStr b) st1) in
  fst (write_code env target (JStr b) st1) = Ok ("Written to " +:+ parser_path target) /\
  files st2 !! parser_path target = Some b /\
  files st2 = files (snd (write_code env target (JStr b) st)).
Proof.
  intros Hopen. unfold write_code. rewrite Hopen. simpl.
  split_and!.
  - done.
  - apply lookup_insert_eq.
  - apply insert_insert_eq.
Qed.

Lemma write_code_overwrites_witness :
  files (snd (write_code (Sample.env []) "icici" (JStr "short")
                (snd (write_code (Sample.env []) "icici" (JStr "good")
                        (Sample.state 0 ∅)))))
  !! parser_path "icici" = Some "short".
Proof.
  refine (proj1 (proj2 (write_code_overwrites (Sample.env []) "icici"
                          "good" "short" (Sample.state 0 ∅) _))).
  reflexivity.
Defined.

(** ** The test runner, further *)

(** With the parser file on disk, [run_test] does not say that it is
    absent. *)
Lemma run_test_found (env : Env) (target pdf csv : string)
    (fs : gmap string string) (source : string) :
  fs !! parser_path target = Some source ->
  run_test env target pdf csv fs <> Ok "Parser file does not exist.".
Proof.
  intros Hfile H. revert H.
  unfold run_test, compare, mbind, Res_bind. rewrite Hfile. clear Hfile. intros H.
  destruct (spec_from_file_location _ _ _) as [spec|]; [|discriminate H].
  destruct (loader spec) as [ld|]; [|discriminate H].
  destruct (exec_module ld source) as [module|e];
    [|destruct (caught_by e NameError); discriminate H].
  destruct (parse module pdf) as [obj|e];
    [|destruct (caught_by e Exception); discriminate H].
  destruct (read_csv env csv) as [expected|e];
    [|destruct obj; destruct (caught_by e Exception); discriminate H].
  destruct obj as [parsed|ty|answer sh hd].
  - destruct (equals parsed expected); discriminate H.
  - discriminate H.
  - destruct (answer expected) as [[|]|e];
      [discriminate H| |destruct (caught_by e Exception); discriminate H].
    destruct sh as [s|e]; [|destruct (caught_by e Exception); discriminate H].
    destruct hd as [h|e]; [|destruct (caught_by e Exception); discriminate H].
    discriminate H.
Qed.

(** X3. [run_test] answers "Parser file does not exist." exactly when
    the parser file of the target is absent. *)
Theorem run_test_not_found_iff (env : Env) (target pdf csv : string)
    (fs : gmap string string) :
  run_test env target pdf csv fs = Ok "Parser file does not exist."
  <-> fs !! parser_path target = None.
Proof.
  split; [|unfold run_test; by intros ->].
  intros H.
  destruct (fs !! parser_path target) as [source|] eqn:Hfile; [exfalso|done].
  by apply (run_test_found env target pdf csv fs source).
Qed.

Lemma mismatch_of_failed (a b c d : string) : mismatch_of a b c d <> "TEST PASSED".
Proof.
  intros Heq.
  assert (String.prefix "TEST F" (mismatch_of a b c d) = true)
    as Hpre by (by apply prefix_append_l).
  by rewrite Heq in Hpre.
Qed.

(** X4. [run_test] never reports a pass it did not observe: it
    returns "TEST PASSED" only when the parser file exists, the module
    loaded, [parse] returned an object, the reference CSV was read, and
    the object answered that it equals the reference: for a data frame,
    that [equals] does not tell the two tables apart. *)
Theorem run_test_pass_is_sound (env : Env) (target pdf csv : string)
    (fs : gmap string string) :
  run_test env target pdf csv fs = Ok "TEST PASSED" ->
  exists source spec ld module obj expected,
    fs !! parser_path target = Some source /\
    spec_from_file_location env (target +:+ "_parser") (parser_path target)
    = Some spec /\
    loader spec = Some ld /\
    exec_module ld source = Ok module /\
    parse module pdf = Ok obj /\
    read_csv env csv = Ok expected /\
    answers_equal obj expected.
Proof.
  unfold run_test, compare, mbind, Res_bind. intros H.
  destruct (fs !! parser_path target) as [source|]; [|discriminate H].
  destruct (spec_from_file_location _ _ _) as [spec|]; [|discriminate H].
  destruct (loader spec) as [ld|] eqn:Hld; [|discriminate H].
  destruct (exec_module ld source) as [module|e] eqn:Hexec;
    [|destruct (caught_by e NameError); discriminate H].
  destruct (parse module pdf) as [obj|e] eqn:Hparse;
    [|destruct (caught_by e Exception); discriminate H].
  destruct (read_csv env csv) as [expected|e] eqn:Hcsv;
    [|destruct obj; destruct (caught_by e Exception); discriminate H].
  exists source, spec, ld, module, obj, expected.
  split_and!; try done.
  destruct obj as [parsed|ty|answer sh hd]; simpl.
  - destruct (equals parsed expected) eqn:Heq.
    + by apply equals_same_table.
    + exfalso. apply (mismatch_message_failed env parsed expected).
      simpl in H. congruence.
  - simpl in H. discriminate H.
  - destruct (answer expected) as [[|]|e];
      [done| |destruct (caught_by e Exception); discriminate H].
    exfalso.
    destruct sh as [s|e]; [|destruct (caught_by e Exception); discriminate H].
    destruct hd as [h|e]; [|destruct (caught_by e Exception); discriminate H].
    simpl in H.
    apply (mismatch_of_failed s (PyStr.of_shape (shape expected)) h
             (df_str env (head 5 expected))).
    congruence.
Qed.

Lemma run_test_pass_is_sound_witness :
  exists source spec ld module obj expected,
    Sample.on_disk "gaps" !! parser_path "icici" = Some source /\
    spec_from_file_location Gaps.env ("icici" +:+ "_parser")
      (parser_path "icici") = Some spec /\
    loader spec = Some ld /\
    exec_module ld source = Ok module /\
    parse module "data/icici/icici_sample.pdf" = Ok obj /\
    read_csv Gaps.env "data/icici/icici_sample.csv" = Ok expected /\
    answers_equal obj expected.
Proof.
  apply (run_test_pass_is_sound Gaps.env "icici"
           "data/icici/icici_sample.pdf" "data/icici/icici_sample.csv"
           (Sample.on_disk "gaps")).
  by vm_compute.
Defined.

(** X5. Once the module is loaded, an error raised by [parse], or by
    reading the reference CSV, is turned into "TEST FAILED: " followed
    by its text when its class derives from [Exception]; an error of
    another class ([SystemExit], [KeyboardInterrupt]) leaves
    [run_test]. *)
Theorem run_test_reports_runtime_error (env : Env) (target pdf csv : string)
    (fs : gmap string string) (source : string) (spec : ModuleSpec)
    (ld : Loader) (module : Module) (e : PyExn) :
  fs !! parser_path target = Some source ->
  spec_from_file_location env (target +:+ "_parser") (parser_path target) = Some spec ->
  loader spec = Some ld ->
  exec_module ld source = Ok module ->
  parse module pdf = Raise e \/
  (exists parsed, parse module pdf = Ok parsed /\ read_csv env csv = Raise e) ->
  run_test env target pdf csv fs
  = if caught_by e Exception then Ok ("TEST FAILED: " +:+ exn_str e) else Raise e.
Proof.
  intros Hfile Hspec Hld Hexec Hraise.
  rewrite (run_test_loaded env target pdf csv fs source spec ld module) by done.
  unfold compare, mbind, Res_bind.
  destruct Hraise as [->|(parsed & -> & ->)]; done.
Qed.

Lemma run_test_reports_runtime_error_witness :
  run_test (Scenario.env []) "icici" "data/icici/icici_sample.pdf"
    "data/icici/icici_sample.csv" (Sample.on_disk "1/0")
  = Ok "TEST FAILED: division by zero".
Proof.
  apply (run_test_reports_runtime_error (Scenario.env []) "icici"
           "data/icici/icici_sample.pdf" "data/icici/icici_sample.csv"
           (Sample.on_disk "1/0") "1/0"
           (mkModuleSpec (Some (mkLoader Scenario.interpret)))
           (mkLoader Scenario.interpret)
           (mkModule (fun _ => Raise (mkExn ZeroDivisionError "division by zero")))
           (mkExn ZeroDivisionError "division by zero"));
    try reflexivity.
  left. reflexivity.
Defined.


(** ** The dispatcher, further *)

Lemma files_kept_refl (target : string) (st : State) : files_kept target st st.
Proof. by split. Qed.

Lemma files_kept_trans (target : string) (st1 st2 st3 : State) :
  files_kept target st1 st2 -> files_kept target st2 st3 ->
  files_kept target st1 st3.
Proof.
  intros [H1 H1'] [H2 H2']. split.
  - intros p Hp. by rewrite H2, H1.
  - auto.
Qed.

Lemma files_kept_same (target : string) (st st' : State) :
  files st' = files st -> files_kept target st st'.
Proof. intros H. unfold files_kept. by rewrite H. Qed.

Lemma files_kept_insert (target : string) (st st' : State) (s : string) :
  files st' = <[parser_path target := s]> (files st) -> files_kept target st st'.
Proof.
  intros H. unfold files_kept. rewrite H. split.
  - intros p Hp. by rewrite lookup_insert_ne.
  - intros _. rewrite lookup_insert_eq. by eexists.
Qed.

Lemma process_tool_call_keeps (env : Env) (target : string) (tc : ToolCall)
    (st : State) (r : Res unit) (st' : State) :
  process_tool_call env target tc st = (r, st') ->
  files_kept target st st' /\
  (tc_name tc <> "write_parser_code" ->
   files st' = files st /\ attempts st' = attempts st) /\
  attempts st' <= attempts st + 1 /\
  (forall e, r = Raise e -> caught_by e Exception = false).
Proof.
  unfold_step. intros H. crunch.
  all: repeat match goal with
       | H : String.eqb _ _ = true |- _ => apply String.eqb_eq in H
       end.
  all: split_and!;
    [ first [ by apply files_kept_same
            | by eapply files_kept_insert ]
    | first [ done | by intros [] ]
    | simpl; lia
    | intros ? ?; by simplify_eq ].
Qed.

Lemma for_each_keeps (env : Env) (target : string) (l : list ToolCall)
    (st : State) (r : Res unit) (st' : State) :
  for_each l (process_tool_call env target) st = (r, st') ->
  files_kept target st st' /\
  attempts st' <= attempts st + length l /\
  (forall e, r = Raise e -> caught_by e Exception = false).
Proof.
  revert st. induction l as [|tc l IH]; intros st H.
  - injection H as <- <-. split_and!; [apply files_kept_refl | simpl; lia | done].
  - simpl in H. unfold mbind, M_bind in H.
    destruct (process_tool_call env target tc st) as [r1 st1] eqn:H1.
    apply process_tool_call_keeps in H1 as (Hk & _ & Ha & He).
    destruct r1 as [[]|e1].
    + apply IH in H as (Hk' & Ha' & He').
      split_and!; [by eapply files_kept_trans | simpl; lia | done].
    + injection H as <- <-. split_and!; [done | simpl; lia |].
      intros e [= <-]. by apply He.
Qed.

(** X6. Whatever the invocations of a round, no error whose class
    derives from [Exception] leaves the loop over them: an error that
    does leave it is not an [Exception]. *)
Theorem dispatcher_contains_exceptions (env : Env) (target : string)
    (l : list ToolCall) (st : State) (e : PyExn) (st' : State) :
  for_each l (process_tool_call env target) st = (Raise e, st') ->
  caught_by e Exception = false.
Proof. intros H. apply for_each_keeps in H as (_ & _ & H). by apply H. Qed.

Lemma dispatcher_contains_exceptions_witness :
  caught_by (mkExn SystemExit "0") Exception = false.
Proof.
  apply (dispatcher_contains_exceptions (Scenario.env []) "icici"
           [Scenario.call "call_1" "run_test"]
           (Sample.state 0 (Sample.on_disk "exit"))
           (mkExn SystemExit "0")
           (push_event (EvHandler "run_test")
              (Sample.state 0 (Sample.on_disk "exit")))).
  vm_compute. reflexivity.
Defined.



Lemma plain_message_cases (env : Env) (target : string) (message : ModelMessage)
    (st : State) (r : Res (option Exit)) (st' : State) :
  plain_message env target message st = (r, st') ->
  files st' = files st /\
  (forall e, r = Raise e ->
     run_test env target (pdf_path target) (csv_path target) (files st) = Raise e).
Proof.
  unfold plain_message, lift, append, print, record, get, mbind, mret, M_bind, M_ret.
  intros H. crunch. all: split; [done|]; intros ? ?; by simplify_eq.
Qed.

Lemma loop_body_keeps (env : Env) (target : string) (st : State)
    (r : Res (option Exit)) (st' : State) :
  loop_body env target st = (r, st') ->
  files_kept target st st' /\
  (forall e, r = Raise e ->
     chat_create env (messages st) = Raise e \/
     run_test env target (pdf_path target) (csv_path target) (files st) = Raise e \/
     caught_by e Exception = false).
Proof.
  unfold loop_body, lift, record, get, set_iteration, append,
    mbind, mret, M_bind, M_ret. intros H. cbv beta iota in H.
  destruct (chat_create env (messages st)) as [message|e0] eqn:Hchat;
    cbv beta iota in H.
  2: { injection H as <- <-. split; [by apply files_kept_same|].
       intros e [= <-]. by left. }
  destruct (mm_tool_calls message) as [[|tc tcs]|] eqn:Htcs.
  2: { cbv beta iota in H.
       destruct (for_each _ _ _) as [r1 st1] eqn:Hfor in H.
       apply for_each_keeps in Hfor as (Hk & _ & He).
       destruct r1 as [[]|e1]; simpl in H; injection H as <- <-.
       - split; [|done]. eapply files_kept_trans; [|exact Hk].
         by apply files_kept_same.
       - split.
         + eapply files_kept_trans; [|exact Hk]. by apply files_kept_same.
         + intros e [= <-]. right. right. by apply He. }
  all: destruct (plain_message env target message _) as [r1 st1] eqn:Hplain in H.
  all: apply plain_message_cases in Hplain as [Hf He].
  all: destruct r1 as [[x|]|e1]; injection H as <- <-.
  all: split; [by apply files_kept_same|].
  all: try done.
  all: intros e [= <-]; right; left; by apply He.
Qed.




(** X9. A round of the loop raises only when the request to the model
    raises, when the final test raises, or when the error is not an
    [Exception]. *)
Theorem round_raises_only (env : Env) (target : string) (st : State)
    (e : PyExn) (st' : State) :
  loop_body env target st = (Raise e, st') ->
  chat_create env (messages st) = Raise e \/
  run_test env target (pdf_path target) (csv_path target) (files st) = Raise e \/
  caught_by e Exception = false.
Proof. intros H. apply loop_body_keeps in H as [_ H]. by apply H. Qed.

Lemma round_raises_only_witness :
  chat_create (Scenario.env []) (messages (Sample.state 0 ∅))
  = Raise (mkExn (OtherException "APIConnectionError") "Connection error.") \/
  run_test (Scenario.env []) "icici" (pdf_path "icici") (csv_path "icici")
    (files (Sample.state 0 ∅))
  = Raise (mkExn (OtherException "APIConnectionError") "Connection error.") \/
  caught_by (mkExn (OtherException "APIConnectionError") "Connection error.")
    Exception = false.
Proof.
  apply (round_raises_only (Scenario.env []) "icici" (Sample.state 0 ∅)
           (mkExn (OtherException "APIConnectionError") "Connection error.")
           (push_event EvModel (Sample.state 0 ∅))).
  reflexivity.
Defined.




(** ** The run, further *)





Lemma while_loop_calls_mono (env : Env) (target : string) (fuel : nat)
    (st : State) (r : Res (option Exit)) (st' : State) :
  while_loop env target fuel st = (r, st') -> model_calls st <= model_calls st'.
Proof.
  revert st. induction fuel as [|fuel IH]; intros st H.
  - by injection H as <- <-.
  - simpl in H. unfold get, mbind, M_bind in H. cbv beta iota in H.
    destruct (iteration st <? max_iterations)%nat.
    + destruct (loop_body env target st) as [r1 st1] eqn:Hbody.
      apply loop_body_frame in Hbody as (Hm & _).
      destruct r1 as [[exit|]|e].
      * injection H as <- <-. lia.
      * apply IH in H. lia.
      * injection H as <- <-. lia.
    + by injection H as <- <-.
Qed.

Lemma while_loop_S (env : Env) (target : string) (fuel : nat) (st : State) :
  while_loop env target (S fuel) st
  = if (iteration st <? max_iterations)%nat then
      match loop_body env target st with
      | (Ok (Some exit), st1) => (Ok (Some exit), st1)
      | (Ok None, st1) => while_loop env target fuel st1
      | (Raise e, st1) => (Raise e, st1)
      end
    else (Ok (Some CeilingReached), push_line "Max iterations reached." st).
Proof.
  simpl. unfold get, mbind, M_bind. cbv beta iota.
  destruct (iteration st <? max_iterations)%nat; [|done].
  by destruct (loop_body env target st) as [[[exit|]|e] st1].
Qed.

Lemma while_loop_asks_once (env : Env) (target : string) (fuel : nat)
    (st : State) (r : Res (option Exit)) (st' : State) :
  iteration st < max_iterations ->
  while_loop env target (S fuel) st = (r, st') ->
  model_calls st + 1 <= model_calls st'.
Proof.
  intros Hlt%Nat.ltb_lt. rewrite while_loop_S, Hlt.
  destruct (loop_body env target st) as [r1 st1] eqn:Hbody.
  apply loop_body_frame in Hbody as (Hm & _).
  destruct r1 as [[exit|]|e]; intros Hloop.
  - injection Hloop as <- <-. lia.
  - apply while_loop_calls_mono in Hloop. lia.
  - injection Hloop as <- <-. lia.
Qed.

(** X12. The model is asked at least once exactly when the API key is
    set and both sample files exist. Otherwise the run raises a
    [ValueError] before anything is printed, appended or written; when
    the checks pass, the transcript of the run starts with the system
    and user messages. *)
Theorem model_asked_iff_preflight (env : Env) (target : string)
    (fs : gmap string string) :
  (preflight_ok env target = false ->
   exists msg, run_agent env target fs
               = (Raise (mkExn ValueError msg), blank_state fs)) /\
  (preflight_ok env target = true <->
   1 <= model_calls (snd (run_agent env target fs))) /\
  (preflight_ok env target = true ->
   initial_messages target `prefix_of` messages (snd (run_agent env target fs))).
Proof.
  unfold preflight_ok, run_agent.
  destruct (getenv env "GROQ_API_KEY") as [[|c key]|].
  1,3: split_and!; [by eexists | split; [done | unfold model_calls; simpl; lia]
                   | done].
  destruct (sample_exists env (pdf_path target)),
           (sample_exists env (csv_path target)); cbn [negb orb andb].
  2-4: split_and!; [by eexists | split; [done | unfold model_calls; simpl; lia]
                   | done].
  destruct (while_loop _ _ _ _) as [r st] eqn:Hloop.
  split_and!; [done | |].
  - split; [intros _|done].
    apply while_loop_asks_once in Hloop; [|simpl; unfold max_iterations; lia].
    change (model_calls (initial_state target fs)) with 0 in Hloop.
    simpl. lia.
  - intros _. apply while_loop_spec in Hloop as (_ & _ & _ & _ & Hp & _);
      [done | simpl; unfold max_iterations; lia].
Qed.

Lemma model_asked_iff_preflight_witness :
  exists msg,
    run_agent Scenario.no_key "icici" (Sample.on_disk "good")
    = (Raise (mkExn ValueError msg), blank_state (Sample.on_disk "good")).
Proof.
  apply (proj1 (model_asked_iff_preflight Scenario.no_key "icici"
                  (Sample.on_disk "good"))).
  reflexivity.
Defined.

(** X13. A round of tool calls that completes appends the assistant
    message with the requested invocations, then one result per
    invocation in order, and moves the iteration counter by one. *)
Theorem tool_round_transcript (env : Env) (target : string) (st : State)
    (message : ModelMessage) (tc : ToolCall) (tcs : list ToolCall) (st' : State) :
  chat_create env (messages st) = Ok message ->
  mm_tool_calls message = Some (tc :: tcs) ->
  loop_body env target st = (Ok None, st') ->
  iteration st' = iteration st + 1 /\
  exists ms,
    messages st' = messages st ++ request_message message :: ms /\
    Forall2 answers ms (tc :: tcs).
Proof.
  intros Hchat Htcs.
  unfold loop_body, lift, record, get, set_iteration, append,
    mbind, mret, M_bind, M_ret. cbv beta iota.
  rewrite Hchat. cbv beta iota. rewrite Htcs. cbv beta iota.
  destruct (for_each _ _ _) as [r1 st1] eqn:Hfor.
  apply for_each_frame in Hfor as [[Hi _ _ _ _] Hans].
  destruct r1 as [[]|e1]; simpl; intros [= <-]; simpl.
  split; [by rewrite Hi|].
  destruct (Hans eq_refl) as (ms & Hms & Hall).
  exists ms. split; [|done]. rewrite Hms. simpl.
  unfold request_message. rewrite Htcs. by rewrite <- app_assoc.
Qed.

Lemma tool_round_transcript_witness :
  let message :=
    mkModelMessage None
      (Some [Scenario.call "call_1" "get_expected_info";
             Scenario.call "call_2" "run_test"]) in
  let st := Sample.state 0 (Sample.on_disk "good") in
  let st' := snd (loop_body (Scenario.env [message]) "icici" st) in
  iteration st' = iteration st + 1 /\
  exists ms,
    messages st' = messages st ++ request_message message :: ms /\
    Forall2 answers ms
      [Scenario.call "call_1" "get_expected_info";
       Scenario.call "call_2" "run_test"].
Proof.
  intros message st st'.
  apply (tool_round_transcript (Scenario.env [message]) "icici" st message
           (Scenario.call "call_1" "get_expected_info")
           [Scenario.call "call_2" "run_test"] st').
  - reflexivity.
  - reflexivity.
  - vm_compute. reflexivity.
Defined.

(** ** Accepted writes *)

Lemma write_accepted_step (env : Env) (target : string) (tc : ToolCall)
    (st : State) (source : string) :
  tc_name tc = "write_parser_code" ->
  truthy_id (tc_id tc) = true ->
  attempts st < 3 ->
  decode_code env tc = Ok (JStr source) ->
  open_w env (parser_path target) = None ->
  process_tool_call env target tc st = (Ok tt, write_accepted target tc source st).
Proof.
  intros Hname Hid Hlt Hdecode Hopen.
  unfold process_tool_call, try_except. rewrite Hname, write_lookup.
  rewrite falsy_id, Hid. simpl.
  unfold tool_write_parser_code, mbind, M_bind, get, record. simpl.
  destruct (3 <? attempts st + 1)%nat eqn:Hfull;
    [apply Nat.ltb_lt in Hfull; lia|].
  unfold decode_code, mbind in Hdecode. rewrite Hdecode. simpl.
  unfold write_code. rewrite Hopen. simpl.
  unfold write_accepted, result_message. by rewrite Hname.
Qed.

(** X14. A write request with a token, made while fewer than three
    attempts are used, whose arguments decode to a string [code] and
    whose file can be opened, is accepted: the parser file holds the
    code, the attempt counter and the number of writes move up by one,
    the confirmation is appended, and [run_test] then finds the file. *)
Theorem write_request_accepted (env : Env) (target : string) (tc : ToolCall)
    (st : State) (source : string) :
  tc_name tc = "write_parser_code" ->
  truthy_id (tc_id tc) = true ->
  attempts st < 3 ->
  decode_code env tc = Ok (JStr source) ->
  open_w env (parser_path target) = None ->
  let st' := write_accepted target tc source st in
  process_tool_call env target tc st = (Ok tt, st') /\
  files st' !! parser_path target = Some source /\
  attempts st' = attempts st + 1 /\
  accepted_writes st' = accepted_writes st + 1 /\
  run_test env target (pdf_path target) (csv_path target) (files st')
  <> Ok "Parser file does not exist.".
Proof.
  intros Hname Hid Hlt Hdecode Hopen st'.
  split_and!.
  - by apply write_accepted_step.
  - apply lookup_insert_eq.
  - done.
  - unfold st', write_accepted. measures. lia.
  - apply (run_test_found env target _ _ _ source). apply lookup_insert_eq.
Qed.

Lemma write_request_accepted_witness :
  let tc := Sample.write (IdStr "call_1") (Sample.code_args (Sample.quoted "good")) in
  process_tool_call (Sample.env []) "icici" tc (Sample.state 2 ∅)
  = (Ok tt, write_accepted "icici" tc "good" (Sample.state 2 ∅)).
Proof.
  intros tc.
  refine (proj1 (write_request_accepted (Sample.env []) "icici" tc
                   (Sample.state 2 ∅) "good" _ _ _ _ _));
    [reflexivity | reflexivity | simpl; lia | reflexivity | reflexivity].
Defined.

(** X15. A write request whose arguments decode to an object without
    the key [code] is accepted with the default: the parser file is
    overwritten with the empty string and an attempt is used. *)
Theorem missing_code_key_empties_parser (env : Env) (target : string)
    (tc : ToolCall) (st : State) (items : list (string * json)) :
  tc_name tc = "write_parser_code" ->
  truthy_id (tc_id tc) = true ->
  attempts st < 3 ->
  json_loads env (tc_arguments tc) = Ok (JDict items) ->
  assoc_get "code" items = None ->
  open_w env (parser_path target) = None ->
  process_tool_call env target tc st = (Ok tt, write_accepted target tc "" st) /\
  files (write_accepted target tc "" st) !! parser_path target = Some "".
Proof.
  intros Hname Hid Hlt Hloads Hkey Hopen. split.
  - apply write_accepted_step; try done.
    unfold decode_code, mbind, Res_bind. rewrite Hloads. simpl. by rewrite Hkey.
  - apply lookup_insert_eq.
Qed.

Lemma missing_code_key_empties_parser_witness :
  let tc := Sample.write (IdStr "call_1") "{}" in
  files (write_accepted "icici" tc "" (Sample.state 0 (Sample.on_disk "good")))
  !! parser_path "icici" = Some "".
Proof.
  intros tc.
  refine (proj2 (missing_code_key_empties_parser (Scenario.env []) "icici" tc
                   (Sample.state 0 (Sample.on_disk "good")) [] _ _ _ _ _ _));
    [reflexivity | reflexivity | simpl; lia | reflexivity | reflexivity
    | reflexivity].
Defined.

(** ** The verdict of the final test *)

(** X16. The verdict of the completion branch is a substring test on
    the result of [run_test]: when [parse] raises an [Exception], the
    result is "TEST FAILED: " followed by the error text, and the run
    still ends with the verdict "passed" exactly when that text
    contains "TEST PASSED". *)
Theorem error_text_decides_verdict (env : Env) (target : string) (st : State)
    (message : ModelMessage) (fuel : nat) (source : string) (spec : ModuleSpec)
    (ld : Loader) (module : Module) (e : PyExn) :
  iteration st < max_iterations ->
  chat_create env (messages st) = Ok message ->
  mm_tool_calls message = None \/ mm_tool_calls message = Some [] ->
  PyStr.contains "FINISH" (PyStr.upper (or_empty (mm_content message))) = true ->
  files st !! parser_path target = Some source ->
  spec_from_file_location env (target +:+ "_parser") (parser_path target) = Some spec ->
  loader spec = Some ld ->
  exec_module ld source = Ok module ->
  parse module (pdf_path target) = Raise e ->
  caught_by e Exception = true ->
  run_test env target (pdf_path target) (csv_path target) (files st)
  = Ok ("TEST FAILED: " +:+ exn_str e) /\
  fst (while_loop env target (S fuel) st)
  = Ok (Some (Finished (PyStr.contains "TEST PASSED" (exn_str e)))).
Proof.
  intros Hlt Hchat Htcs Hfin Hfile Hspec Hld Hexec Hparse Hcaught.
  assert (run_test env target (pdf_path target) (csv_path target) (files st)
          = Ok ("TEST FAILED: " +:+ exn_str e)) as Hrun.
  { rewrite (run_test_loaded env target _ _ (files st) source spec ld module)
      by done.
    unfold compare, mbind, Res_bind. by rewrite Hparse, Hcaught. }
  split; [done|].
  rewrite (completion_round env target st message fuel) by done.
  rewrite Hrun. reflexivity.
Qed.

Lemma error_text_decides_verdict_witness :
  fst (while_loop (Scenario.env [Scenario.finish]) "icici" 31
         (Sample.state 1 (Sample.on_disk "marker")))
  = Ok (Some (Finished true)).
Proof.
  refine (proj2 (error_text_decides_verdict (Scenario.env [Scenario.finish])
            "icici" (Sample.state 1 (Sample.on_disk "marker")) Scenario.finish 30
            "marker"
            (mkModuleSpec (Some (mkLoader Scenario.interpret)))
            (mkLoader Scenario.interpret)
            (mkModule (fun _ =>
               Raise (mkExn ValueError "unexpected status: TEST PASSED")))
            (mkExn ValueError "unexpected status: TEST PASSED")
            _ _ _ _ _ _ _ _ _ _));
    try reflexivity.
  - unfold max_iterations. simpl. lia.
  - by left.
Defined.

(** ** The pytest test and the test runner *)

(** Neither side reports a pass. *)
Ltac both_fail :=
  split; intros H; exfalso;
  first
    [ discriminate H
    | injection H as H;
      apply (f_equal (String.prefix "TEST P")) in H; cbv in H; discriminate H ].

(** X17. The pytest test and the test runner agree: when both see the
    same parser file, module and sample data (under the paths each of
    them uses), [test_parse] passes exactly when [run_test] returns
    "TEST PASSED". *)
Theorem test_parse_agrees_with_run_test (env : Env) (target : string)
    (fs_test fs : gmap string string) :
  TARGET env = target ->
  fs_test !! (target +:+ "_parser.py") = fs !! parser_path target ->
  spec_from_file_location env (target +:+ "_parser") (target +:+ "_parser.py")
  = spec_from_file_location env (target +:+ "_parser") (parser_path target) ->
  (forall source spec ld module,
     fs !! parser_path target = Some source ->
     spec_from_file_location env (target +:+ "_parser") (parser_path target)
     = Some spec ->
     loader spec = Some ld ->
     exec_module ld source = Ok module ->
     parse module (fixture_pdf_path env) = parse module (pdf_path target)) ->
  read_csv env (fixture_csv_path env) = read_csv env (csv_path target) ->
  (test_parse env fs_test = TestPassed <->
   run_test env target (pdf_path target) (csv_path target) fs = Ok "TEST PASSED").
Proof.
  intros Htarget Hfile Hspec Hparse Hcsv.
  unfold test_parse, run_test, compare, mbind, Res_bind. cbv zeta.
  rewrite Htarget, Hfile, Hspec, Hcsv.
  destruct (fs !! parser_path target) as [source|]; [|both_fail].
  destruct (spec_from_file_location env (target +:+ "_parser") (parser_path target))
    as [spec|]; [|both_fail].
  destruct (loader spec) as [ld|] eqn:Hld; [|both_fail].
  destruct (exec_module ld source) as [module|e] eqn:Hexec;
    [|destruct (caught_by e NameError); both_fail].
  rewrite (Hparse source spec ld module) by done.
  destruct (parse module (pdf_path target)) as [[parsed|ty|answer sh hd]|e];
    [| | |destruct (caught_by e Exception); both_fail].
  - destruct (read_csv env (csv_path target)) as [expected|e];
      [|destruct (caught_by e Exception); both_fail].
    destruct (equals parsed expected) eqn:Heq; [done|].
    split; [intros H; discriminate H|]. intros H. exfalso.
    apply (mismatch_message_failed env parsed expected). simpl in H. congruence.
  - destruct (read_csv env (csv_path target)) as [expected|e];
      [|destruct (caught_by e Exception); both_fail].
    both_fail.
  - destruct (read_csv env (csv_path target)) as [expected|e];
      [|destruct (caught_by e Exception); both_fail].
    destruct (answer expected) as [[|]|e];
      [done| |destruct (caught_by e Exception); both_fail].
    destruct sh as [s|e]; [|destruct (caught_by e Exception); both_fail].
    destruct hd as [h|e]; [|destruct (caught_by e Exception); both_fail].
    split; [intros H; discriminate H|]. intros H. exfalso.
    apply (mismatch_of_failed s (PyStr.of_shape (shape expected)) h
             (df_str env (head 5 expected))).
    simpl in H. congruence.
Qed.

Lemma test_parse_agrees_with_run_test_witness :
  test_parse (Scenario.env []) {[ "icici_parser.py" := "good" ]} = TestPassed
  <-> run_test (Scenario.env []) "icici" (pdf_path "icici") (csv_path "icici")
        (Sample.on_disk "good") = Ok "TEST PASSED".
Proof.
  apply (test_parse_agrees_with_run_test (Scenario.env []) "icici"
           {[ "icici_parser.py" := "good" ]} (Sample.on_disk "good"));
    try reflexivity.
  intros source spec ld module Hfile Hspec Hld Hexec.
  vm_compute in Hfile. injection Hfile as <-.
  injection Hspec as <-. injection Hld as <-.
  vm_compute in Hexec. injection Hexec as <-. reflexivity.
Defined.

(** ** The catalog and the write executor, further *)

(** X18. The dispatcher holds an executor for a name exactly when the
    name is one of the four tools of the catalog offered to the
    model. *)
Theorem catalog_matches_tool_map (func_name : string) :
  is_Some (tool_map !! func_name) <-> func_name ∈ tools.
Proof.
  split; [|apply tool_map_Some].
  intros Hsome. destruct (decide (func_name ∈ tools)) as [|Hout]; [done|].
  rewrite (tool_map_None _ Hout) in Hsome. by destruct Hsome.
Qed.

(** What the dispatcher does with a write request once the executor
    is entered with attempts left. *)
Lemma write_step (env : Env) (target : string) (tc : ToolCall) (st : State) :
  tc_name tc = "write_parser_code" ->
  truthy_id (tc_id tc) = true ->
  attempts st < 3 ->
  process_tool_call env target tc st
  = match decode_code env tc with
    | Raise e =>
        if caught_by e JSONDecodeError || caught_by e AttributeError then
          (Ok tt,
           write_answered tc ("Failed to parse tool arguments: " +:+ exn_str e) st)
        else if caught_by e Exception then (Ok tt, tool_error_state tc e st)
        else (Raise e, push_event (EvHandler (tc_name tc)) st)
    | Ok code =>
        match open_w env (parser_path target) with
        | Some e =>
            if caught_by e Exception then (Ok tt, tool_error_state tc e st)
            else (Raise e, push_event (EvHandler (tc_name tc)) st)
        | None =>
            match code with
            | JStr source => (Ok tt, write_accepted target tc source st)
            | _ =>
                (Ok tt,
                 tool_error_state tc
                   (mkExn TypeError
                      ("write() argument must be str, not " +:+ write_arg_name code))
                   (with_files (<[parser_path target := ""]> (files st)) st))
            end
        end
    end.
Proof.
  intros Hname Hid Hlt.
  unfold process_tool_call, try_except. rewrite Hname, write_lookup.
  rewrite falsy_id, Hid. simpl.
  unfold tool_write_parser_code, mbind, M_bind, get, record. simpl.
  destruct (3 <? attempts st + 1)%nat eqn:Hfull;
    [apply Nat.ltb_lt in Hfull; lia|].
  unfold decode_code, mbind.
  destruct (Res_bind _ _ _ _) as [code|e]; simpl.
  - unfold write_code.
    destruct (open_w env (parser_path target)) as [e|]; simpl.
    + unfold raise, tool_error_state. rewrite Hname.
      by destruct (caught_by e Exception).
    + unfold write_accepted, tool_error_state, result_message. rewrite Hname.
      by destruct code.
  - unfold write_answered, tool_error_state, result_message, raise.
    rewrite Hname.
    destruct (caught_by e JSONDecodeError || caught_by e AttributeError);
      [done|]. simpl. by destruct (caught_by e Exception).
Qed.

(** X19. A write request whose arguments decode to a JSON value that
    is not an object (a list, a string, a number, ...) is answered with
    "Failed to parse tool arguments: '<type>' object has no attribute
    'get'": an attempt is used and no file is written. *)
Theorem non_object_arguments_rejected (env : Env) (target : string)
    (tc : ToolCall) (st : State) (args : json) :
  tc_name tc = "write_parser_code" ->
  truthy_id (tc_id tc) = true ->
  attempts st < 3 ->
  json_loads env (tc_arguments tc) = Ok args ->
  (forall items, args <> JDict items) ->
  let text := "Failed to parse tool arguments: '" +:+ type_name args
                +:+ "' object has no attribute 'get'" in
  process_tool_call env target tc st = (Ok tt, write_answered tc text st) /\
  attempts (write_answered tc text st) = attempts st + 1 /\
  files (write_answered tc text st) = files st.
Proof.
  intros Hname Hid Hlt Hloads Hargs text.
  split; [|done]. rewrite write_step by done.
  unfold decode_code, mbind, Res_bind. rewrite Hloads.
  destruct args; try done. by destruct (Hargs items).
Qed.

Lemma non_object_arguments_rejected_witness :
  process_tool_call (Sample.env []) "icici"
    (Sample.write (IdStr "call_1") "[1]") (Sample.state 0 ∅)
  = (Ok tt,
     write_answered (Sample.write (IdStr "call_1") "[1]")
       "Failed to parse tool arguments: 'list' object has no attribute 'get'"
       (Sample.state 0 ∅)).
Proof.
  refine (proj1 (non_object_arguments_rejected (Sample.env []) "icici"
            (Sample.write (IdStr "call_1") "[1]") (Sample.state 0 ∅)
            (JList [JInt 1]) _ _ _ _ _));
    [reflexivity | reflexivity | simpl; lia | reflexivity | discriminate].
Defined.

(** X20. A write request whose arguments decode but whose write
    fails is answered with a "Tool error" result and uses no attempt:
    when the file cannot be opened the files stay as they were; when
    the code is not a string the answer is the [TypeError] of
    [f.write], which names the type of the value ([None] for a null),
    the parser file is left empty and no write is recorded. *)
Theorem failed_write_is_not_counted (env : Env) (target : string)
    (tc : ToolCall) (st : State) (code : json) :
  tc_name tc = "write_parser_code" ->
  truthy_id (tc_id tc) = true ->
  attempts st < 3 ->
  decode_code env tc = Ok code ->
  (forall e, open_w env (parser_path target) = Some e ->
     caught_by e Exception = true ->
     process_tool_call env target tc st = (Ok tt, tool_error_state tc e st) /\
     files (tool_error_state tc e st) = files st /\
     attempts (tool_error_state tc e st) = attempts st) /\
  (open_w env (parser_path target) = None ->
   (forall source, code <> JStr source) ->
   let e := mkExn TypeError
              ("write() argument must be str, not " +:+ write_arg_name code) in
   let st' := tool_error_state tc e
                (with_files (<[parser_path target := ""]> (files st)) st) in
   process_tool_call env target tc st = (Ok tt, st') /\
   files st' !! parser_path target = Some "" /\
   attempts st' = attempts st /\
   accepted_writes st' = accepted_writes st).
Proof.
  intros Hname Hid Hlt Hdecode. split.
  - intros e Hopen Hcaught. split; [|done].
    rewrite write_step by done. by rewrite Hdecode, Hopen, Hcaught.
  - intros Hopen Hcode e st'. split_and!.
    + rewrite write_step by done. rewrite Hdecode, Hopen.
      destruct code; try done. by destruct (Hcode s).
    + apply lookup_insert_eq.
    + done.
    + unfold st', tool_error_state. measures. lia.
Qed.

Lemma failed_write_is_not_counted_witness :
  let tc := Sample.write (IdStr "call_1") (Sample.code_args "5") in
  let st := Sample.state 0 (Sample.on_disk "good") in
  let st' := snd (process_tool_call (Sample.env []) "icici" tc st) in
  files st' !! parser_path "icici" = Some "" /\ attempts st' = 0.
Proof.
  intros tc st st'.
  destruct (proj2 (failed_write_is_not_counted (Sample.env []) "icici" tc st
                     (JInt 5) eq_refl eq_refl ltac:(simpl; lia) eq_refl)
              eq_refl ltac:(discriminate))
    as (Hstep & Hfile & Hattempts & _).
  unfold st'. rewrite Hstep. split; [exact Hfile | exact Hattempts].
Defined.





